(** * tensorflow/lite/python/convert.py: the conversion-request layer

    A shallow embedding of the Python module that builds the TOCO/TFLite
    conversion protos and dispatches them to the converter, either
    in-process or through the [toco_from_protos] helper process.

    Python values are embedded as follows: [None]-able arguments are
    [option]s, [str]/[bytes] payloads are Rocq strings (sequences of
    8-bit characters), protocol buffers are records whose optional
    fields are [option]s, a raised exception is the [Raise] branch of
    [result], and code that touches the file system or spawns a process
    is a state-passing function over [World]. *)

From Stdlib Require Import Floats.SpecFloat.
From stdpp Require Import gmap strings list pretty.

Local Open Scope string_scope.
Local Open Scope list_scope.
Local Open Scope Z_scope.

(** ** Exceptions *)

Inductive exn : Type :=
| ConverterError (msg : string)
| ValueError (msg : string)
| TypeError (msg : string)
| IndexError (msg : string)
| OSError (msg : string)
| RuntimeError (msg : string).

(** [str(e)] for the exceptions above: the message they were built with. *)
Definition str_exn (e : exn) : string :=
  match e with
  | ConverterError m | ValueError m | TypeError m
  | IndexError m | OSError m | RuntimeError m => m
  end.

Inductive result (A : Type) : Type :=
| Return (a : A)
| Raise (e : exn).
Arguments Return {A} a.
Arguments Raise {A} e.

(** [result] is a monad: [x ← c; k] runs [k] on the value [c] returns
    and propagates the exception [c] raises. *)
#[global] Instance result_ret : MRet result := λ A a, Return a.
#[global] Instance result_bind : MBind result := λ A B k r,
  match r with
  | Return a => k a
  | Raise e => Raise e
  end.

(** ** Enumerations of the imported proto modules *)

(** Modelled from the spec: the element types of
    [tensorflow.python.framework.dtypes], which this module imports and
    does not declare; the values a tensor or an [inference_type]
    argument can carry. *)
Inductive dtype : Type :=
| float32 | float16 | float64 | int8 | uint8 | int16 | int32 | int64
| bool_ | string_ | complex64 | complex128 | resource | variant.

(** Modelled from the spec: the enumeration [types_pb2.IODataType] of
    the converter's element types, declared outside this module. *)
Inductive IODataType : Type :=
| IO_DATA_TYPE_UNKNOWN | FLOAT | QUANTIZED_UINT8 | INT32 | INT64 | STRING
| QUANTIZED_INT16 | BOOL | COMPLEX64 | INT8 | FLOAT16 | FLOAT64 | COMPLEX128.

(** Modelled from the spec: the format selectors
    [toco_flags_pb2.FileFormat], declared outside this module;
    [lite_constants.TENSORFLOW_GRAPHDEF] and [lite_constants.TFLITE] are
    two of its values. *)
Inductive FileFormat : Type :=
| FILE_FORMAT_UNKNOWN | TENSORFLOW_GRAPHDEF | TFLITE | GRAPHVIZ_DOT.

#[global] Instance dtype_eq_dec : EqDecision dtype.
Proof. solve_decision. Defined.
#[global] Instance IODataType_eq_dec : EqDecision IODataType.
Proof. solve_decision. Defined.
#[global] Instance FileFormat_eq_dec : EqDecision FileFormat.
Proof. solve_decision. Defined.

(** [class OpsSet(enum.Enum)]. *)
Inductive OpsSet : Type :=
| TFLITE_BUILTINS
| SELECT_TF_OPS
| TFLITE_BUILTINS_INT8
| EXPERIMENTAL_TFLITE_BUILTINS_ACTIVATIONS_INT16_WEIGHTS_INT8.

#[global] Instance OpsSet_eq_dec : EqDecision OpsSet.
Proof. solve_decision. Defined.

Definition OpsSet_to_nat (o : OpsSet) : nat :=
  match o with
  | TFLITE_BUILTINS => 0
  | SELECT_TF_OPS => 1
  | TFLITE_BUILTINS_INT8 => 2
  | EXPERIMENTAL_TFLITE_BUILTINS_ACTIVATIONS_INT16_WEIGHTS_INT8 => 3
  end%nat.

Definition OpsSet_of_nat (n : nat) : option OpsSet :=
  match n with
  | 0 => Some TFLITE_BUILTINS
  | 1 => Some SELECT_TF_OPS
  | 2 => Some TFLITE_BUILTINS_INT8
  | 3 => Some EXPERIMENTAL_TFLITE_BUILTINS_ACTIVATIONS_INT16_WEIGHTS_INT8
  | _ => None
  end%nat.

#[global] Instance OpsSet_countable : Countable OpsSet.
Proof.
  refine (inj_countable OpsSet_to_nat OpsSet_of_nat _). by intros [].
Defined.

(** [OpsSet.__str__] and [OpsSet.get_options]. *)
Definition OpsSet_str (o : OpsSet) : string :=
  match o with
  | TFLITE_BUILTINS => "TFLITE_BUILTINS"
  | SELECT_TF_OPS => "SELECT_TF_OPS"
  | TFLITE_BUILTINS_INT8 => "TFLITE_BUILTINS_INT8"
  | EXPERIMENTAL_TFLITE_BUILTINS_ACTIVATIONS_INT16_WEIGHTS_INT8 =>
      "EXPERIMENTAL_TFLITE_BUILTINS_ACTIVATIONS_INT16_WEIGHTS_INT8"
  end.

Definition get_options : list string :=
  OpsSet_str <$> [TFLITE_BUILTINS; SELECT_TF_OPS; TFLITE_BUILTINS_INT8;
                  EXPERIMENTAL_TFLITE_BUILTINS_ACTIVATIONS_INT16_WEIGHTS_INT8].

(** ** Protocol buffers *)

(** A Python [float]: an IEEE 754 binary64 value. *)
Definition pyfloat : Type := spec_float.

(** What a message field of type [float] holds after it is assigned a
    Python float: the value narrowed to single precision, read back as
    a Python float.  The narrowing is done by the protobuf runtime, not
    by this module, so it is a parameter. *)
Class Protobuf : Type := {
  float_field : pyfloat → pyfloat
}.

(** An [int32] field accepts the integers of 32 bits in two's
    complement and raises [ValueError] on any other. *)
Definition int32_field (n : Z) : result Z :=
  if bool_decide (-2 ^ 31 ≤ n < 2 ^ 31) then Return n
  else Raise (ValueError ("Value out of range: " +:+ pretty n)).

(** [field.extend(values)] on a repeated [int32] field: every value is
    checked, the first one out of range raises. *)
Fixpoint int32_extend (values : list Z) : result (list Z) :=
  match values with
  | [] => Return []
  | n :: rest =>
      n ← int32_field n;
      rest ← int32_extend rest;
      Return (n :: rest)
  end.

(** Modelled from the spec: the message [TocoFlags.OperatorVersion],
    declared outside this module, an operator identifier with a
    version. *)
Record OperatorVersion : Type := {
  op_id : Z;
  op_version : Z
}.

(** Modelled from the spec: the message [toco_flags_pb2.TocoFlags],
    declared outside this module, with the fields this module writes.
    Fields the code assigns under a condition are [option]s ([None]:
    never assigned); the two select-ops toggles are booleans that a
    fresh message reads as [false]. *)
Record TocoFlags : Type := {
  input_format : FileFormat;
  output_format : FileFormat;
  inference_type : IODataType;
  inference_input_type : IODataType;
  drop_control_dependency : bool;
  reorder_across_fake_quant : bool;
  allow_custom_ops : bool;
  custom_opdefs : list string;
  select_user_tf_ops : list string;
  post_training_quantize : bool;
  quantize_to_float16 : bool;
  default_ranges_min : option pyfloat;
  default_ranges_max : option pyfloat;
  dump_graphviz_dir : option string;
  dump_graphviz_include_video : bool;
  conversion_summary_dir : option string;
  enable_select_tf_ops : bool;
  force_select_tf_ops : bool;
  operators_versions : list OperatorVersion
}.

(** Modelled from the spec: the message [ModelFlags.InputArray],
    declared outside this module, with its [shape] sub-message
    inlined. *)
Record InputArray : Type := {
  ia_name : string;
  ia_data_type : option IODataType;
  ia_mean_value : option pyfloat;
  ia_std_value : option pyfloat;
  ia_dims : list Z;
  ia_unknown_rank : bool
}.

(** Modelled from the spec: the message [model_flags_pb2.ModelFlags],
    declared outside this module, with the fields this module writes. *)
Record ModelFlags : Type := {
  input_arrays : list InputArray;
  output_arrays : list string;
  change_concat_input_ranges : bool;
  allow_nonexistent_arrays : bool;
  saved_model_dir : option string;
  saved_model_version : Z;
  saved_model_tags : list string;
  saved_model_exported_names : list string
}.

(** ** Tensors *)

(** Modelled from the spec: one entry of a shape, as the loop over
    [shape] tells them apart: Python [None], a plain integer, or a
    [tensor_shape.Dimension] object whose [value] may be [None]. *)
Inductive Dim : Type :=
| DimNone
| DimInt (n : Z)
| Dimension (value : option Z).

(** Modelled from the spec: [tensor_shape.TensorShape], declared
    outside this module; [rank] is [None] or the number of entries of
    the dimension list. *)
Inductive TensorShape : Type :=
| UnknownRank
| KnownRank (dims : list Dim).

(** Modelled from the spec: a tensor, by the three attributes this
    module reads. *)
Record Tensor : Type := {
  tensor_name : string;
  tensor_dtype : dtype;
  tensor_shape : TensorShape
}.

(** ** Python truthiness of the argument kinds used below *)

Definition truthy_str (s : option string) : bool :=
  match s with
  | Some s => bool_decide (s ≠ "")
  | None => false
  end.

Definition truthy_list {A} (l : option (list A)) : bool :=
  match l with
  | Some (_ :: _) => true
  | _ => false
  end.

(** The elements of an optional list argument (none for [None]). *)
Definition items {A} (l : option (list A)) : list A := default [] l.

(** ** Collaborators from [tensorflow.lite.python.util]

    [util.convert_dtype_to_tflite_type] maps a TensorFlow dtype to the
    converter's type enum and raises [ValueError] for a dtype it has no
    entry for; [util.get_tensor_name] gives the graph name of a tensor.
    Neither is defined in this module, so both are parameters. *)
Class Util : Type := {
  convert_dtype_to_tflite_type : dtype → result IODataType;
  get_tensor_name : Tensor → string
}.

(** ** Keyword arguments *)

(** The named parameters of [build_toco_flags]. *)
Record TocoArgs : Type := {
  arg_inference_type : dtype;
  arg_inference_input_type : option dtype;
  arg_input_format : FileFormat;
  arg_output_format : FileFormat;
  arg_default_ranges_stats : option (pyfloat * pyfloat);
  arg_drop_control_dependency : bool;
  arg_reorder_across_fake_quant : bool;
  arg_allow_custom_ops : bool;
  arg_custom_opdefs : option (list string);
  arg_post_training_quantize : bool;
  arg_quantize_to_float16 : bool;
  arg_dump_graphviz_dir : option string;
  arg_dump_graphviz_video : bool;
  arg_target_ops : option (list OpsSet);
  arg_conversion_summary_dir : option string;
  arg_select_user_tf_ops : option (list string);
  arg_operators_versions : list (Z * Z)
}.

(** The defaults of the [def build_toco_flags(...)] signature. *)
Definition default_toco_args : TocoArgs := {|
  arg_inference_type := float32;
  arg_inference_input_type := None;
  arg_input_format := TENSORFLOW_GRAPHDEF;
  arg_output_format := TFLITE;
  arg_default_ranges_stats := None;
  arg_drop_control_dependency := true;
  arg_reorder_across_fake_quant := false;
  arg_allow_custom_ops := false;
  arg_custom_opdefs := None;
  arg_post_training_quantize := false;
  arg_quantize_to_float16 := false;
  arg_dump_graphviz_dir := None;
  arg_dump_graphviz_video := false;
  arg_target_ops := None;
  arg_conversion_summary_dir := None;
  arg_select_user_tf_ops := None;
  arg_operators_versions := []
|}.

(** The parameters of [build_toco_convert_protos] besides the two tensor
    lists: those it forwards to [build_toco_flags] and its own. *)
Record ConvertArgs : Type := {
  toco_args : TocoArgs;
  arg_input_shapes : option (list TensorShape);
  arg_quantized_input_stats : option (list (pyfloat * pyfloat));
  arg_change_concat_input_ranges : bool;
  arg_allow_nonexistent_arrays : bool;
  arg_debug_info : option string;
  arg_saved_model_dir : option string;
  arg_saved_model_version : Z;
  arg_saved_model_tags : option (list string);
  arg_saved_model_exported_names : option (list string)
}.

Definition default_convert_args : ConvertArgs := {|
  toco_args := default_toco_args;
  arg_input_shapes := None;
  arg_quantized_input_stats := None;
  arg_change_concat_input_ranges := false;
  arg_allow_nonexistent_arrays := false;
  arg_debug_info := None;
  arg_saved_model_dir := None;
  arg_saved_model_version := 0;
  arg_saved_model_tags := None;
  arg_saved_model_exported_names := None
|}.

(** ** The request builders *)

Definition _quantized_inference_types : list IODataType :=
  [QUANTIZED_UINT8; INT8].

Definition _requires_input_stats (toco_flags : TocoFlags) : bool :=
  (bool_decide (inference_type toco_flags ∈ _quantized_inference_types)
   || bool_decide (inference_input_type toco_flags ∈ _quantized_inference_types))
  && negb (post_training_quantize toco_flags).

(** [x[idx]] on a Python list. *)
Definition py_index {A} (l : list A) (idx : nat) : result A :=
  match l !! idx with
  | Some x => Return x
  | None => Raise (IndexError "list index out of range")
  end.

(** The body of [for dim in shape]: [-1] for an unknown dimension,
    [int(dim)] otherwise. *)
Definition dim_entry (dim : Dim) : Z :=
  match dim with
  | DimNone => -1
  | Dimension None => -1
  | DimInt n => n
  | Dimension (Some v) => v
  end.

Definition stats_error_message : string :=
  "The `quantized_input_stats` flag must be defined when either "
  +:+ "`inference_type` flag or `inference_input_type` flag is set to "
  +:+ "tf.int8 or tf.uint8.".

Section Builders.
Context {util : Util} {protobuf : Protobuf}.

Definition build_toco_flags (a : TocoArgs) : result TocoFlags :=
  it ← convert_dtype_to_tflite_type (arg_inference_type a);
  iit ← match arg_inference_input_type a with
        | Some d => convert_dtype_to_tflite_type d
        | None => Return it
        end;
  let target_ops := arg_target_ops a in
  let ops : gset OpsSet := list_to_set (items target_ops) in
  Return {|
    input_format := arg_input_format a;
    output_format := arg_output_format a;
    inference_type := it;
    inference_input_type := iit;
    drop_control_dependency := arg_drop_control_dependency a;
    reorder_across_fake_quant := arg_reorder_across_fake_quant a;
    allow_custom_ops := arg_allow_custom_ops a;
    custom_opdefs :=
      if truthy_list (arg_custom_opdefs a)
      then items (arg_custom_opdefs a) else [];
    select_user_tf_ops :=
      if truthy_list (arg_select_user_tf_ops a)
      then items (arg_select_user_tf_ops a) else [];
    post_training_quantize := arg_post_training_quantize a;
    quantize_to_float16 := arg_quantize_to_float16 a;
    default_ranges_min := float_field ∘ fst <$> arg_default_ranges_stats a;
    default_ranges_max := float_field ∘ snd <$> arg_default_ranges_stats a;
    dump_graphviz_dir :=
      if truthy_str (arg_dump_graphviz_dir a)
      then arg_dump_graphviz_dir a else None;
    dump_graphviz_include_video := arg_dump_graphviz_video a;
    conversion_summary_dir :=
      if truthy_str (arg_conversion_summary_dir a)
      then arg_conversion_summary_dir a else None;
    enable_select_tf_ops :=
      truthy_list target_ops && bool_decide (SELECT_TF_OPS ∈ ops);
    force_select_tf_ops :=
      truthy_list target_ops && bool_decide (ops = {[SELECT_TF_OPS]});
    operators_versions :=
      (λ '(op, version), {| op_id := op; op_version := version |})
        <$> arg_operators_versions a
  |}.

(** The shape taken for the input at position [idx]: the tensor's own
    when [input_shapes] is [None], else [input_shapes[idx]]. *)
Definition input_shape (c : ConvertArgs) (idx : nat)
    (input_tensor : Tensor) : result TensorShape :=
  match arg_input_shapes c with
  | None => Return (tensor_shape input_tensor)
  | Some input_shapes => py_index input_shapes idx
  end.

(** One iteration of [for idx, input_tensor in enumerate(input_tensors)]. *)
Definition build_input_array (toco : TocoFlags) (c : ConvertArgs)
    (idx : nat) (input_tensor : Tensor) : result InputArray :=
  let name :=
    if truthy_str (arg_saved_model_dir c)
    then tensor_name input_tensor
    else get_tensor_name input_tensor in
  data_type ← convert_dtype_to_tflite_type (tensor_dtype input_tensor);
  stats ←
    (if _requires_input_stats toco
        && truthy_list (arg_quantized_input_stats c)
     then '(mean, std) ← py_index (items (arg_quantized_input_stats c)) idx;
          Return (Some (float_field mean), Some (float_field std))
     else Return (None, None));
  shape ← input_shape c idx input_tensor;
  match shape with
  | KnownRank dims =>
      dims ← int32_extend (dim_entry <$> dims);
      Return {|
        ia_name := name;
        ia_data_type := Some data_type;
        ia_mean_value := stats.1;
        ia_std_value := stats.2;
        ia_dims := dims;
        ia_unknown_rank := false |}
  | UnknownRank =>
      Return {|
        ia_name := name;
        ia_data_type := Some data_type;
        ia_mean_value := stats.1;
        ia_std_value := stats.2;
        ia_dims := [];
        ia_unknown_rank := true |}
  end.

Fixpoint build_input_arrays (toco : TocoFlags) (c : ConvertArgs)
    (idx : nat) (input_tensors : list Tensor) : result (list InputArray) :=
  match input_tensors with
  | [] => Return []
  | input_tensor :: rest =>
      input_array ← build_input_array toco c idx input_tensor;
      arrays ← build_input_arrays toco c (S idx) rest;
      Return (input_array :: arrays)
  end.

Definition build_toco_convert_protos
    (input_tensors output_tensors : list Tensor) (c : ConvertArgs)
  : result (ModelFlags * TocoFlags * option string) :=
  toco ← build_toco_flags (toco_args c);
  arrays ← build_input_arrays toco c 0 input_tensors;
  let model := {|
    input_arrays := arrays;
    output_arrays :=
      (λ output_tensor,
         if truthy_str (arg_saved_model_dir c)
         then tensor_name output_tensor
         else get_tensor_name output_tensor) <$> output_tensors;
    change_concat_input_ranges := arg_change_concat_input_ranges c;
    allow_nonexistent_arrays := arg_allow_nonexistent_arrays c;
    saved_model_dir :=
      if truthy_str (arg_saved_model_dir c)
      then arg_saved_model_dir c else None;
    saved_model_version := arg_saved_model_version c;
    saved_model_tags :=
      if truthy_list (arg_saved_model_tags c)
      then items (arg_saved_model_tags c) else [];
    saved_model_exported_names :=
      if truthy_list (arg_saved_model_exported_names c)
      then items (arg_saved_model_exported_names c) else []
  |} in
  Return (model, toco, arg_debug_info c).

(** One iteration of the loop over [input_arrays_with_shape] in
    [toco_convert_graph_def]; [kwargs] are the caller's keyword
    arguments, the same that went to [build_toco_convert_protos]. *)
Definition graph_def_input_array (toco_flags : TocoFlags)
    (kwargs : ConvertArgs) (idx : nat) (entry : string * list Z)
  : result InputArray :=
  let '(name, shape) := entry in
  stats ←
    (if _requires_input_stats toco_flags
     then
       if negb (truthy_list (arg_quantized_input_stats kwargs))
       then Raise (ValueError stats_error_message)
       else '(mean, std) ←
              py_index (items (arg_quantized_input_stats kwargs)) idx;
            Return (Some (float_field mean), Some (float_field std))
     else Return (None, None));
  dims ← int32_extend shape;
  Return {|
    ia_name := name;
    ia_data_type := None;
    ia_mean_value := stats.1;
    ia_std_value := stats.2;
    ia_dims := dims;
    ia_unknown_rank := false |}.

Fixpoint graph_def_input_arrays (toco_flags : TocoFlags)
    (kwargs : ConvertArgs) (idx : nat)
    (input_arrays_with_shape : list (string * list Z))
  : result (list InputArray) :=
  match input_arrays_with_shape with
  | [] => Return []
  | entry :: rest =>
      input_array ← graph_def_input_array toco_flags kwargs idx entry;
      arrays ← graph_def_input_arrays toco_flags kwargs (S idx) rest;
      Return (input_array :: arrays)
  end.

(** The request-building part of [toco_convert_graph_def]: everything
    up to the call of [toco_convert_protos]. *)
Definition toco_convert_graph_def_protos
    (input_arrays_with_shape : list (string * list Z))
    (output_arrays_ : list string) (kwargs : ConvertArgs)
  : result (ModelFlags * TocoFlags) :=
  '(model_flags, toco_flags, _) ← build_toco_convert_protos [] [] kwargs;
  arrays ←
    graph_def_input_arrays toco_flags kwargs 0 input_arrays_with_shape;
  Return ({|
    input_arrays := input_arrays model_flags ++ arrays;
    output_arrays := output_arrays model_flags ++ output_arrays_;
    change_concat_input_ranges := change_concat_input_ranges model_flags;
    allow_nonexistent_arrays := allow_nonexistent_arrays model_flags;
    saved_model_dir := saved_model_dir model_flags;
    saved_model_version := saved_model_version model_flags;
    saved_model_tags := saved_model_tags model_flags;
    saved_model_exported_names := saved_model_exported_names model_flags
  |}, toco_flags).

End Builders.

(** ** Calls by keyword: [build_toco_flags] applied to [**kwargs]

    [convert_saved_model] forwards its keyword dictionary to
    [build_toco_flags], whose signature ends in [**_].  A keyword that
    names a parameter binds it, a parameter without keyword takes its
    default, and every other keyword lands in [_], which the body never
    reads.  Keyword values are dynamically typed; a value outside the
    documented type of the parameter it names is reported as
    [TypeError] here, the embedding going no further into it. *)
Inductive pyval : Type :=
| PyNone
| PyBool (b : bool)
| PyInt (n : Z)
| PyStr (s : string)
| PyDType (d : dtype)
| PyFormat (f : FileFormat)
| PyStrList (l : list string)
| PyRange (lo hi : pyfloat)
| PyOpsSets (l : list OpsSet)
| PyVersions (l : list (Z * Z)).

Definition toco_flags_param_names : list string :=
  [ "inference_type"; "inference_input_type"; "input_format";
    "output_format"; "default_ranges_stats"; "drop_control_dependency";
    "reorder_across_fake_quant"; "allow_custom_ops"; "custom_opdefs";
    "post_training_quantize"; "quantize_to_float16"; "dump_graphviz_dir";
    "dump_graphviz_video"; "target_ops"; "conversion_summary_dir";
    "select_user_tf_ops"; "operators_versions" ].

Definition as_dtype (v : pyval) : option dtype :=
  match v with PyDType d => Some d | _ => None end.
Definition as_opt_dtype (v : pyval) : option (option dtype) :=
  match v with PyNone => Some None | PyDType d => Some (Some d) | _ => None end.
Definition as_format (v : pyval) : option FileFormat :=
  match v with PyFormat f => Some f | _ => None end.
Definition as_bool (v : pyval) : option bool :=
  match v with PyBool b => Some b | _ => None end.
Definition as_opt_range (v : pyval)
  : option (option (pyfloat * pyfloat)) :=
  match v with
  | PyNone => Some None
  | PyRange lo hi => Some (Some (lo, hi))
  | _ => None
  end.
Definition as_opt_str (v : pyval) : option (option string) :=
  match v with PyNone => Some None | PyStr s => Some (Some s) | _ => None end.
Definition as_opt_strs (v : pyval) : option (option (list string)) :=
  match v with
  | PyNone => Some None
  | PyStrList l => Some (Some l)
  | _ => None
  end.
Definition as_opt_ops (v : pyval) : option (option (list OpsSet)) :=
  match v with
  | PyNone => Some None
  | PyOpsSets l => Some (Some l)
  | _ => None
  end.
Definition as_versions (v : pyval) : option (list (Z * Z)) :=
  match v with PyVersions l => Some l | _ => None end.

(** The value parameter [name] is bound to: the keyword's value when
    [kwargs] has it, the signature's default [dflt] otherwise. *)
Definition kwarg {A} (kwargs : gmap string pyval) (name : string)
    (dflt : A) (as_type : pyval → option A) : result A :=
  match kwargs !! name with
  | None => Return dflt
  | Some v =>
      match as_type v with
      | Some a => Return a
      | None => Raise (TypeError name)
      end
  end.

Definition bind_toco_args (kwargs : gmap string pyval) : result TocoArgs :=
  let d := default_toco_args in
  a1 ← kwarg kwargs "inference_type" (arg_inference_type d) as_dtype;
  a2 ← kwarg kwargs "inference_input_type" (arg_inference_input_type d)
         as_opt_dtype;
  a3 ← kwarg kwargs "input_format" (arg_input_format d) as_format;
  a4 ← kwarg kwargs "output_format" (arg_output_format d) as_format;
  a5 ← kwarg kwargs "default_ranges_stats" (arg_default_ranges_stats d)
         as_opt_range;
  a6 ← kwarg kwargs "drop_control_dependency"
         (arg_drop_control_dependency d) as_bool;
  a7 ← kwarg kwargs "reorder_across_fake_quant"
         (arg_reorder_across_fake_quant d) as_bool;
  a8 ← kwarg kwargs "allow_custom_ops" (arg_allow_custom_ops d) as_bool;
  a9 ← kwarg kwargs "custom_opdefs" (arg_custom_opdefs d) as_opt_strs;
  a10 ← kwarg kwargs "post_training_quantize"
          (arg_post_training_quantize d) as_bool;
  a11 ← kwarg kwargs "quantize_to_float16" (arg_quantize_to_float16 d)
          as_bool;
  a12 ← kwarg kwargs "dump_graphviz_dir" (arg_dump_graphviz_dir d)
          as_opt_str;
  a13 ← kwarg kwargs "dump_graphviz_video" (arg_dump_graphviz_video d)
          as_bool;
  a14 ← kwarg kwargs "target_ops" (arg_target_ops d) as_opt_ops;
  a15 ← kwarg kwargs "conversion_summary_dir"
          (arg_conversion_summary_dir d) as_opt_str;
  a16 ← kwarg kwargs "select_user_tf_ops" (arg_select_user_tf_ops d)
          as_opt_strs;
  a17 ← kwarg kwargs "operators_versions" (arg_operators_versions d)
          as_versions;
  Return {|
    arg_inference_type := a1;
    arg_inference_input_type := a2;
    arg_input_format := a3;
    arg_output_format := a4;
    arg_default_ranges_stats := a5;
    arg_drop_control_dependency := a6;
    arg_reorder_across_fake_quant := a7;
    arg_allow_custom_ops := a8;
    arg_custom_opdefs := a9;
    arg_post_training_quantize := a10;
    arg_quantize_to_float16 := a11;
    arg_dump_graphviz_dir := a12;
    arg_dump_graphviz_video := a13;
    arg_target_ops := a14;
    arg_conversion_summary_dir := a15;
    arg_select_user_tf_ops := a16;
    arg_operators_versions := a17
  |}.

(** [build_toco_flags] applied to [**kwargs]. *)
Definition build_toco_flags_kw {util : Util} {protobuf : Protobuf}
    (kwargs : gmap string pyval)
  : result TocoFlags :=
  a ← bind_toco_args kwargs;
  build_toco_flags a.

(** ** The host the dispatcher runs on *)

(** A Python string value: [bytes] or text.  Text is held as its UTF-8
    encoding, so [s.encode("utf-8")] keeps the characters. *)
Inductive pystr : Type :=
| PyBytes (b : string)
| PyText (s : string).

Definition encode_utf8 (s : string) : string := s.

(** The calls that leave this module, in the order they happen. *)
Inductive event : Type :=
| InProcessCall (model_flags_str toco_flags_str : string)
    (input_data_str : option string) (debug_info_str : option pystr)
    (enable_mlir_converter : bool)
| ProcessSpawn (cmdline : string).

Record World : Type := {
  files : gmap string string;   (* regular files: path to contents *)
  search_path : list string;    (* the directories of PATH *)
  tmp_names : list string;      (* names [tempfile] will try, in order *)
  trace : list event            (* calls made so far, oldest first *)
}.

Definition set_files (fs : gmap string string) (w : World) : World :=
  {| files := fs; search_path := search_path w;
     tmp_names := tmp_names w; trace := trace w |}.

Definition set_tmp_names (names : list string) (w : World) : World :=
  {| files := files w; search_path := search_path w;
     tmp_names := names; trace := trace w |}.

Definition log (ev : event) (w : World) : World :=
  {| files := files w; search_path := search_path w;
     tmp_names := tmp_names w; trace := trace w ++ [ev] |}.

(** Collaborators outside this module: the in-process converter of
    [wrap_toco], what the shell does with a command line (exit code,
    combined standard output and error, files left behind), whether
    [six.ensure_text] can decode a byte string, how [%s] prints a
    [bytes] object, and the serialisers of the proto classes. *)
Class Runtime : Type := {
  wrapped_toco_convert :
    string → string → option string → option pystr → bool → result string;
  shell :
    string → list string → gmap string string →
    Z * string * gmap string string;
  utf8_valid : string → bool;
  bytes_str : string → string;
  ModelFlags_SerializeToString : ModelFlags → string;
  TocoFlags_SerializeToString : TocoFlags → string
}.

(** *** Stateful computations that may raise *)

Record IO (S A : Type) : Type := mkIO { run : S → result A * S }.
Arguments mkIO {S A} run.
Arguments run {S A} _ _.

#[global] Instance IO_ret {S} : MRet (IO S) :=
  λ A a, mkIO (λ s, (Return a, s)).

#[global] Instance IO_bind {S} : MBind (IO S) := λ A B k c,
  mkIO (λ s,
    match run c s with
    | (Return a, s') => run (k a) s'
    | (Raise e, s') => (Raise e, s')
    end).

Definition raise {S A} (e : exn) : IO S A := mkIO (λ s, (Raise e, s)).

Definition lift_result {S A} (r : result A) : IO S A := mkIO (λ s, (r, s)).

(** [try: body finally: final]. *)
Definition try_finally {S A} (body : IO S A) (final : IO S unit) : IO S A :=
  mkIO (λ s,
    let '(r, s1) := run body s in
    match run final s1 with
    | (Return _, s2) => (r, s2)
    | (Raise e, s2) => (Raise e, s2)
    end).

(** [try: body except <caught> as e: handler]. *)
Definition try_except {S A} (body : IO S A) (caught : exn → bool)
    (handler : exn → IO S A) : IO S A :=
  mkIO (λ s,
    match run body s with
    | (Raise e, s1) => if caught e then run (handler e) s1 else (Raise e, s1)
    | ok => ok
    end).

(** [for x in xs: body]. *)
Fixpoint for_each {S A} (xs : list A) (body : A → IO S unit) : IO S unit :=
  match xs with
  | [] => mret ()
  | x :: rest => body x ;; for_each rest body
  end.

(** *** Operating-system and library calls *)

Definition isfile (path : string) (w : World) : bool :=
  bool_decide (is_Some (files w !! path)).

(** [distutils.spawn.find_executable]: the name itself when it is a
    file, else the first directory of the search path holding it. *)
Definition find_executable (executable : string) (w : World) : option string :=
  if isfile executable w then Some executable
  else
    head (filter (λ f, isfile f w = true)
            ((λ p, p +:+ "/" +:+ executable) <$> search_path w)).

(** The first candidate name that no file carries yet. *)
Fixpoint fresh_name (candidates : list string) (fs : gmap string string)
  : option (string * list string) :=
  match candidates with
  | [] => None
  | name :: rest =>
      if bool_decide (fs !! name = None) then Some (name, rest)
      else fresh_name rest fs
  end.

(** [tempfile.NamedTemporaryFile(delete=False)]: an empty file under a
    fresh name, or [OSError] when no name is left to try.  The result is
    the file object's [name]; closing the object leaves the file. *)
Definition NamedTemporaryFile : IO World string :=
  mkIO (λ w,
    match fresh_name (tmp_names w) (files w) with
    | Some (name, rest) =>
        (Return name, set_tmp_names rest (set_files (<[name := ""]> (files w)) w))
    | None =>
        (Raise (OSError "No usable temporary file name found"),
         set_tmp_names [] w)
    end).

(** [fp.write(data)] on the file object named [name]. *)
Definition write (name : string) (data : string) : IO World unit :=
  mkIO (λ w,
    (Return (),
     set_files (<[name := default "" (files w !! name) +:+ data]> (files w)) w)).

(** [open(path, "rb").read()]. *)
Definition read_file (path : string) : IO World string :=
  mkIO (λ w,
    match files w !! path with
    | Some contents => (Return contents, w)
    | None => (Raise (OSError "No such file or directory"), w)
    end).

(** [os.unlink(filename)]: [TypeError] for [None], [OSError] for a path
    that names no file. *)
Definition unlink (filename : option string) : IO World unit :=
  mkIO (λ w,
    match filename with
    | None => (Raise (TypeError "expected str, bytes or os.PathLike object"), w)
    | Some path =>
        if isfile path w
        then (Return (), set_files (delete path (files w)) w)
        else (Raise (OSError "No such file or directory"), w)
    end).

(** [six.ensure_binary]. *)
Definition ensure_binary (s : option string) : result string :=
  match s with
  | Some s => Return s
  | None => Raise (TypeError "not expecting type '<class 'NoneType'>'")
  end.

(** *** The local variables of the out-of-process branch

    [None] is Python's [None] for the four names initialised before the
    [try], and "not yet bound" for [debug_filename]. *)
Record Locals : Type := {
  toco_filename : option string;
  model_filename : option string;
  input_filename : option string;
  output_filename : option string;
  debug_filename : option string
}.

Definition set_toco_filename (v : option string) (l : Locals) : Locals :=
  {| toco_filename := v; model_filename := model_filename l;
     input_filename := input_filename l; output_filename := output_filename l;
     debug_filename := debug_filename l |}.
Definition set_model_filename (v : option string) (l : Locals) : Locals :=
  {| toco_filename := toco_filename l; model_filename := v;
     input_filename := input_filename l; output_filename := output_filename l;
     debug_filename := debug_filename l |}.
Definition set_input_filename (v : option string) (l : Locals) : Locals :=
  {| toco_filename := toco_filename l; model_filename := model_filename l;
     input_filename := v; output_filename := output_filename l;
     debug_filename := debug_filename l |}.
Definition set_output_filename (v : option string) (l : Locals) : Locals :=
  {| toco_filename := toco_filename l; model_filename := model_filename l;
     input_filename := input_filename l; output_filename := v;
     debug_filename := debug_filename l |}.
Definition set_debug_filename (v : option string) (l : Locals) : Locals :=
  {| toco_filename := toco_filename l; model_filename := model_filename l;
     input_filename := input_filename l; output_filename := output_filename l;
     debug_filename := v |}.

(** The locals as the [try] statement finds them. *)
Definition no_locals : Locals :=
  {| toco_filename := None; model_filename := None; input_filename := None;
     output_filename := None; debug_filename := None |}.

Abbreviation Frame := (World * Locals)%type.

Definition in_world {A} (c : IO World A) : IO Frame A :=
  mkIO (λ '(w, l), let '(r, w') := run c w in (r, (w', l))).

Definition assign (f : Locals → Locals) : IO Frame unit :=
  mkIO (λ '(w, l), (Return (), (w, f l))).

Definition locals : IO Frame Locals :=
  mkIO (λ '(w, l), (Return l, (w, l))).

(** Using a local as a string: [TypeError] when it holds [None]. *)
Definition as_str {S} (v : option string) : IO S string :=
  match v with
  | Some s => mret s
  | None => raise (TypeError "expected str instance, NoneType found")
  end.

Definition with_locals {A} (l : Locals) (c : IO Frame A) : IO World A :=
  mkIO (λ w, let '(r, (w', _)) := run c (w, l) in (r, w')).

(** ** The dispatcher *)

(** The line feed character, as a string. *)
Definition nl : string := String (Ascii.ascii_of_nat 10) EmptyString.

Definition not_found_message : string :=
  String.concat nl
    [ "Could not find toco_from_protos binary, make sure";
      "your virtualenv bin directory or pip local bin directory is in your path.";
      "In particular, if you have installed TensorFlow with --user, make sure you";
      "add the install directory to your path.";
      "";
      "For example:";
      "Linux: export PATH=$PATH:~/.local/bin/";
      "Mac: export PATH=$PATH:~/Library/Python/<version#>/bin";
      "";
      "Alternative, use virtualenv." ].

(** [if debug_info_str] on an optional string value. *)
Definition truthy_pystr (s : option pystr) : bool :=
  match s with
  | Some (PyBytes b) => bool_decide (b ≠ "")
  | Some (PyText t) => bool_decide (t ≠ "")
  | None => false
  end.

(** The module-level computation of [_toco_from_proto_bin], run once at
    import: [datafile] is what the resource loader answers for
    "../toco/python/toco_from_protos". *)
Definition import_toco_from_proto_bin
    (EXPERIMENTAL_USE_TOCO_API_DIRECTLY : bool) (datafile : string)
    (w : World) : string :=
  let bin := if EXPERIMENTAL_USE_TOCO_API_DIRECTLY then "" else datafile in
  if bool_decide (bin ≠ "") && negb (isfile bin w)
  then "toco_from_protos" else bin.

Section Dispatch.
Context {util : Util} {protobuf : Protobuf} {runtime : Runtime}.
Variable _toco_from_proto_bin : string.

Definition _try_convert_to_unicode (output : option pystr) : pystr :=
  match output with
  | None => PyText ""
  | Some (PyBytes b) => if utf8_valid b then PyText b else PyBytes b
  | Some (PyText t) => PyText t
  end.

(** What the [%s] conversion prints for a string value. *)
Definition format_s (v : pystr) : string :=
  match v with
  | PyText t => t
  | PyBytes b => bytes_str b
  end.

(** The call into [wrap_toco], noted in the trace. *)
Definition call_wrapped_toco_convert (model_flags_str toco_flags_str : string)
    (input_data_str : option string) (debug_info_str : option pystr)
    (enable_mlir_converter : bool) : IO World string :=
  mkIO (λ w,
    (wrapped_toco_convert model_flags_str toco_flags_str input_data_str
       debug_info_str enable_mlir_converter,
     log (InProcessCall model_flags_str toco_flags_str input_data_str
            debug_info_str enable_mlir_converter) w)).

(** [subprocess.Popen(cmdline, shell=True, stdout=PIPE, stderr=STDOUT)]
    followed by [communicate()]: the captured output, no separate
    error stream, and the exit code. *)
Definition Popen_communicate (cmdline : string)
  : IO World (pystr * option pystr * Z) :=
  mkIO (λ w,
    let '(exitcode, output, fs) := shell cmdline (search_path w) (files w) in
    (Return (PyBytes output, None, exitcode),
     log (ProcessSpawn cmdline) (set_files fs w))).

(** The [with] block that builds all input files. *)
Definition build_input_files (model_flags_str toco_flags_str : string)
    (input_data_str : option string) (debug_info_str : option pystr)
  : IO Frame unit :=
  fp_toco ← in_world NamedTemporaryFile;
  fp_model ← in_world NamedTemporaryFile;
  fp_input ← in_world NamedTemporaryFile;
  fp_debug ← in_world NamedTemporaryFile;
  assign (set_toco_filename (Some fp_toco));;
  assign (set_input_filename (Some fp_input));;
  assign (set_model_filename (Some fp_model));;
  assign (set_debug_filename (Some fp_debug));;
  in_world (write fp_model model_flags_str);;
  in_world (write fp_toco toco_flags_str);;
  data ← lift_result (ensure_binary input_data_str);
  in_world (write fp_input data);;
  let debug_info_str :=
    if truthy_pystr debug_info_str
    then default (PyText "") debug_info_str else PyText "" in
  match debug_info_str with
  | PyText t => in_world (write fp_debug (encode_utf8 t))
  | PyBytes b => in_world (write fp_debug b)
  end.

(** [with NamedTemporaryFile(delete=False) as fp: output_filename = fp.name]. *)
Definition reserve_output_file : IO Frame unit :=
  fp ← in_world NamedTemporaryFile;
  assign (set_output_filename (Some fp)).

(** From [cmd = [...]] to the end of the [try] body. *)
Definition run_toco_from_protos (enable_mlir_converter : bool)
  : IO Frame string :=
  l ← locals;
  model ← as_str (model_filename l);
  toco ← as_str (toco_filename l);
  input ← as_str (input_filename l);
  output ← as_str (output_filename l);
  debug ← as_str (debug_filename l);
  let cmd :=
    [ _toco_from_proto_bin; model; toco; input; output;
      "--debug_proto_file=" +:+ debug ]
    ++ (if enable_mlir_converter then ["--enable_mlir_converter"] else []) in
  let cmdline := String.concat " " cmd in
  '(stdout, stderr, exitcode) ← in_world (Popen_communicate cmdline);
  if bool_decide (exitcode = 0) then
    in_world (read_file output)
  else
    let stdout := _try_convert_to_unicode (Some stdout) in
    let stderr := _try_convert_to_unicode stderr in
    raise (ConverterError
             ("See console for info." +:+ nl +:+ format_s stdout +:+ nl
              +:+ format_s stderr +:+ nl)).

(** The [finally] block. *)
Definition cleanup_files : IO Frame unit :=
  l ← locals;
  for_each
    [toco_filename l; input_filename l; model_filename l; output_filename l]
    (λ filename,
       try_except (in_world (unlink filename))
         (λ e, match e with OSError _ | TypeError _ => true | _ => false end)
         (λ _, mret ())).

Definition toco_convert_protos (model_flags_str toco_flags_str : string)
    (input_data_str : option string) (debug_info_str : option pystr)
    (enable_mlir_converter : bool) : IO World string :=
  if enable_mlir_converter || bool_decide (_toco_from_proto_bin = "") then
    try_except
      (call_wrapped_toco_convert model_flags_str toco_flags_str
         input_data_str debug_info_str enable_mlir_converter)
      (λ _, true)
      (λ e, raise (ConverterError (str_exn e)))
  else
    found ← mkIO (λ w, (Return (find_executable _toco_from_proto_bin w), w));
    match found with
    | None => raise (ConverterError not_found_message)
    | Some _ =>
        with_locals no_locals
          (try_finally
             (build_input_files model_flags_str toco_flags_str
                input_data_str debug_info_str;;
              reserve_output_file;;
              run_toco_from_protos enable_mlir_converter)
             cleanup_files)
    end.

(** [input_data] stands for [input_data.SerializeToString()]. *)
Definition toco_convert_graph_def (input_data : string)
    (input_arrays_with_shape : list (string * list Z))
    (output_arrays_ : list string) (enable_mlir_converter : bool)
    (kwargs : ConvertArgs) : IO World string :=
  '(model_flags, toco_flags) ←
    lift_result
      (toco_convert_graph_def_protos input_arrays_with_shape output_arrays_
         kwargs);
  toco_convert_protos
    (ModelFlags_SerializeToString model_flags)
    (TocoFlags_SerializeToString toco_flags)
    (Some input_data) None enable_mlir_converter.

Definition convert_saved_model (saved_model_dir_ : option string)
    (saved_model_version_ : Z)
    (saved_model_tags_ saved_model_exported_names_ : option (list string))
    (kwargs : gmap string pyval) : IO World string :=
  let model_flags := {|
    input_arrays := [];
    output_arrays := [];
    change_concat_input_ranges := false;
    allow_nonexistent_arrays := false;
    saved_model_dir :=
      if truthy_str saved_model_dir_ then saved_model_dir_ else None;
    saved_model_version := saved_model_version_;
    saved_model_tags :=
      if truthy_list saved_model_tags_ then items saved_model_tags_ else [];
    saved_model_exported_names :=
      if truthy_list saved_model_exported_names_
      then items saved_model_exported_names_ else []
  |} in
  toco_flags ← lift_result (build_toco_flags_kw kwargs);
  toco_convert_protos
    (ModelFlags_SerializeToString model_flags)
    (TocoFlags_SerializeToString toco_flags)
    None None true.

End Dispatch.

(** ** A concrete host, used by the examples

    A [Util] with the usual dtype table, and a [Runtime] whose helper
    process reads the model-flags file named on its command line, fails
    with exit code 1 when it holds "unsupported", and otherwise writes
    "TFL3" to the output file and exits with 0. *)
Module Sample.

Definition util : Util := {|
  convert_dtype_to_tflite_type := λ d,
    match d with
    | float32 => Return FLOAT
    | float16 => Return FLOAT16
    | float64 => Return FLOAT64
    | int8 => Return INT8
    | uint8 => Return QUANTIZED_UINT8
    | int16 => Return QUANTIZED_INT16
    | int32 => Return INT32
    | int64 => Return INT64
    | bool_ => Return BOOL
    | string_ => Return STRING
    | complex64 => Return COMPLEX64
    | complex128 => Return COMPLEX128
    | resource | variant => Raise (ValueError "Unsupported tf.dtype")
    end;
  get_tensor_name := tensor_name
|}.

(** A protobuf runtime that narrows a float as the C cast does: to the
    nearest single-precision value, ties to even, infinite beyond the
    range. *)
Definition protobuf : Protobuf := {|
  float_field := λ x,
    match x with
    | S754_finite s m e => binary_round 24 128 s m e
    | _ => x
    end
|}.

Fixpoint words_from (s cur : string) : list string :=
  match s with
  | EmptyString => [cur]
  | String c rest =>
      if Ascii.eqb c (Ascii.ascii_of_nat 32)
      then cur :: words_from rest ""
      else words_from rest (cur +:+ String c "")
  end.

Definition helper (cmdline : string) (path : list string)
    (fs : gmap string string) : Z * string * gmap string string :=
  match words_from cmdline "" with
  | _ :: model :: _ :: _ :: output :: _ =>
      if bool_decide (fs !! model = Some "unsupported")
      then (1, "error: unsupported op", fs)
      else (0, "", <[output := "TFL3"]> fs)
  | _ => (2, "usage: toco_from_protos", fs)
  end.

Definition runtime : Runtime := {|
  wrapped_toco_convert := λ model_flags_str _ _ _ _,
    if bool_decide (model_flags_str = "unsupported")
    then Raise (RuntimeError "unsupported op")
    else Return "TFL3";
  shell := helper;
  utf8_valid := λ _, true;
  bytes_str := λ b, b;
  ModelFlags_SerializeToString := λ m,
    default "" (saved_model_dir m);
  TocoFlags_SerializeToString := λ _, "toco_flags"
|}.

(** A float image tensor of known rank, and arguments that ask for
    uint8 inference without giving input statistics. *)
Definition image : Tensor := {|
  tensor_name := "input";
  tensor_dtype := float32;
  tensor_shape := KnownRank [DimInt 1; DimInt 224; Dimension (Some 224); DimNone]
|}.

Definition uint8_toco_args : TocoArgs := {|
  arg_inference_type := uint8;
  arg_inference_input_type := None;
  arg_input_format := TENSORFLOW_GRAPHDEF;
  arg_output_format := TFLITE;
  arg_default_ranges_stats := None;
  arg_drop_control_dependency := true;
  arg_reorder_across_fake_quant := false;
  arg_allow_custom_ops := false;
  arg_custom_opdefs := None;
  arg_post_training_quantize := false;
  arg_quantize_to_float16 := false;
  arg_dump_graphviz_dir := None;
  arg_dump_graphviz_video := false;
  arg_target_ops := None;
  arg_conversion_summary_dir := None;
  arg_select_user_tf_ops := None;
  arg_operators_versions := []
|}.

Definition with_toco_args (a : TocoArgs) : ConvertArgs := {|
  toco_args := a;
  arg_input_shapes := None;
  arg_quantized_input_stats := None;
  arg_change_concat_input_ranges := false;
  arg_allow_nonexistent_arrays := false;
  arg_debug_info := None;
  arg_saved_model_dir := None;
  arg_saved_model_version := 0;
  arg_saved_model_tags := None;
  arg_saved_model_exported_names := None
|}.

Definition with_input_shapes (shapes : list TensorShape) : ConvertArgs := {|
  toco_args := default_toco_args;
  arg_input_shapes := Some shapes;
  arg_quantized_input_stats := None;
  arg_change_concat_input_ranges := false;
  arg_allow_nonexistent_arrays := false;
  arg_debug_info := None;
  arg_saved_model_dir := None;
  arg_saved_model_version := 0;
  arg_saved_model_tags := None;
  arg_saved_model_exported_names := None
|}.

Definition with_target_ops (ops : list OpsSet) : TocoArgs := {|
  arg_inference_type := float32;
  arg_inference_input_type := None;
  arg_input_format := TENSORFLOW_GRAPHDEF;
  arg_output_format := TFLITE;
  arg_default_ranges_stats := None;
  arg_drop_control_dependency := true;
  arg_reorder_across_fake_quant := false;
  arg_allow_custom_ops := false;
  arg_custom_opdefs := None;
  arg_post_training_quantize := false;
  arg_quantize_to_float16 := false;
  arg_dump_graphviz_dir := None;
  arg_dump_graphviz_video := false;
  arg_target_ops := Some ops;
  arg_conversion_summary_dir := None;
  arg_select_user_tf_ops := None;
  arg_operators_versions := []
|}.

(** The helper is installed in /usr/bin, which is on the search path;
    [tempfile] has five names to offer. *)
Definition world : World := {|
  files := {[ "/usr/bin/toco_from_protos" := "#!" ]};
  search_path := ["/usr/local/bin"; "/usr/bin"];
  tmp_names := ["/tmp/t1"; "/tmp/t2"; "/tmp/t3"; "/tmp/t4"; "/tmp/t5"];
  trace := []
|}.

(** The same host with the helper uninstalled. *)
Definition world_without_helper : World := {|
  files := ∅;
  search_path := ["/usr/local/bin"; "/usr/bin"];
  tmp_names := ["/tmp/t1"; "/tmp/t2"; "/tmp/t3"; "/tmp/t4"; "/tmp/t5"];
  trace := []
|}.

End Sample.

(** ** The entry points on tensors *)

Section Callers.
Context {util : Util} {protobuf : Protobuf} {runtime : Runtime}.
Variable _toco_from_proto_bin : string.

(** [input_data] stands for [input_data.SerializeToString()], and the
    [debug_info] the builder hands back for its serialisation; a debug
    info that is not [None] is truthy. *)
Definition toco_convert_impl (input_data : string)
    (input_tensors output_tensors : list Tensor)
    (enable_mlir_converter : bool) (kwargs : ConvertArgs) : IO World string :=
  '(model_flags, toco_flags, debug_info) ←
    lift_result
      (build_toco_convert_protos input_tensors output_tensors kwargs);
  let debug_info_str :=
    match debug_info with
    | Some serialized => Some (PyBytes serialized)
    | None => None
    end in
  toco_convert_protos _toco_from_proto_bin
    (ModelFlags_SerializeToString model_flags)
    (TocoFlags_SerializeToString toco_flags)
    (Some input_data) debug_info_str enable_mlir_converter.

End Callers.

(** ** More sample requests *)
Module MoreSamples.

(** uint8 inference with one (mean, std) pair, the Python floats [0.1]
    and [0.2]. *)
Definition quantized_args : ConvertArgs := {|
  toco_args := Sample.uint8_toco_args;
  arg_input_shapes := None;
  arg_quantized_input_stats :=
    Some [(S754_finite false 7205759403792794 (-56),
           S754_finite false 7205759403792794 (-55))];
  arg_change_concat_input_ranges := false;
  arg_allow_nonexistent_arrays := false;
  arg_debug_info := None;
  arg_saved_model_dir := None;
  arg_saved_model_version := 0;
  arg_saved_model_tags := None;
  arg_saved_model_exported_names := None
|}.

End MoreSamples.

(** ** Vocabulary of the statements *)

(** Hoare triples on [IO]: from a state in [P], the run ends with a
    result and a state in [Q], whether it returns or raises. *)
Definition hoare {S A} (P : S → Prop) (c : IO S A)
    (Q : result A → S → Prop) : Prop :=
  ∀ s, P s → Q (run c s).1 (run c s).2.

(** The files left when each bound name of [names] is unlinked. *)
Definition unlink_all (names : list (option string))
    (fs : gmap string string) : gmap string string :=
  foldl (λ fs name, match name with Some path => delete path fs | None => fs end)
    fs names.

(** The four names the [finally] block goes through. *)
Definition cleanup_names (l : Locals) : list (option string) :=
  [toco_filename l; input_filename l; model_filename l; output_filename l].

(** The bytes of a debug info argument: none for [None]. *)
Definition debug_payload (debug_info_str : option pystr) : string :=
  match debug_info_str with
  | Some (PyBytes b) => b
  | Some (PyText t) => t
  | None => ""
  end.


(** [msg] contains [text]. *)
Definition contains (msg text : string) : Prop :=
  ∃ before after, msg = before +:+ text +:+ after.

(** A computation preserves [R] when every run takes a state to an
    [R]-related one, whether it returns or raises. *)
Definition preserves {S A} (R : S → S → Prop) (c : IO S A) : Prop :=
  ∀ s, R s (run c s).2.

(** A relation on worlds, read on frames. *)
Definition on_world (R : World → World → Prop) (f f' : Frame) : Prop :=
  R f.1 f'.1.

(** An event of the trace that is a process spawn. *)
Definition is_spawn (ev : event) : Prop := ∃ cmdline, ev = ProcessSpawn cmdline.

(** [w'] extends the trace of [w] by process spawns only. *)
Definition only_spawns (w w' : World) : Prop :=
  ∃ evs, trace w' = trace w ++ evs ∧ Forall is_spawn evs.

Definition same_trace (w w' : World) : Prop := trace w' = trace w.

(** An optional list or string argument with its falsy values ([[]],
    the empty string) replaced by [None]. *)
Definition none_if_empty {A} (l : option (list A)) : option (list A) :=
  if truthy_list l then l else None.

Definition none_if_blank (s : option string) : option string :=
  if truthy_str s then s else None.

(** [a] with every falsy optional argument of [build_toco_flags]
    replaced by [None]. *)
Definition drop_falsy (a : TocoArgs) : TocoArgs := {|
  arg_inference_type := arg_inference_type a;
  arg_inference_input_type := arg_inference_input_type a;
  arg_input_format := arg_input_format a;
  arg_output_format := arg_output_format a;
  arg_default_ranges_stats := arg_default_ranges_stats a;
  arg_drop_control_dependency := arg_drop_control_dependency a;
  arg_reorder_across_fake_quant := arg_reorder_across_fake_quant a;
  arg_allow_custom_ops := arg_allow_custom_ops a;
  arg_custom_opdefs := none_if_empty (arg_custom_opdefs a);
  arg_post_training_quantize := arg_post_training_quantize a;
  arg_quantize_to_float16 := arg_quantize_to_float16 a;
  arg_dump_graphviz_dir := none_if_blank (arg_dump_graphviz_dir a);
  arg_dump_graphviz_video := arg_dump_graphviz_video a;
  arg_target_ops := none_if_empty (arg_target_ops a);
  arg_conversion_summary_dir := none_if_blank (arg_conversion_summary_dir a);
  arg_select_user_tf_ops := none_if_empty (arg_select_user_tf_ops a);
  arg_operators_versions := arg_operators_versions a
|}.

(** Whether the loop of [build_toco_convert_protos] reads
    [quantized_input_stats]. *)
Definition reads_stats (toco : TocoFlags) (c : ConvertArgs) : bool :=
  _requires_input_stats toco && truthy_list (arg_quantized_input_stats c).

(** The named parameters of [convert_saved_model]: a keyword with one
    of these names binds the parameter and never reaches [kwargs]. *)
Definition convert_saved_model_param_names : list string :=
  [ "saved_model_dir"; "saved_model_version"; "saved_model_tags";
    "saved_model_exported_names" ].

(** The command line the dispatcher builds from the file names in [l]. *)
Definition cmdline_of (bin : string) (l : Locals) : string :=
  String.concat " "
    [ bin; default "" (model_filename l); default "" (toco_filename l);
      default "" (input_filename l); default "" (output_filename l);
      "--debug_proto_file=" +:+ default "" (debug_filename l) ].

(** The integers an [int32] field holds. *)
Definition in_int32 (n : Z) : Prop := -2 ^ 31 ≤ n < 2 ^ 31.

(** The dimensions the builders write for a shape. *)
Definition shape_dims (shape : TensorShape) : list Z :=
  match shape with
  | KnownRank dims => dim_entry <$> dims
  | UnknownRank => []
  end.

(** * Properties *)

(** ** Reasoning about [result] *)

Lemma bind_Return {A B} (r : result A) (k : A → result B) (b : B) :
  r ≫= k = Return b ↔ ∃ a, r = Return a ∧ k a = Return b.
Proof.
  destruct r as [a|e]; simpl; split.
  - intros Hk. by exists a.
  - by intros (a' & [= <-] & Hk).
  - discriminate.
  - by intros (a' & [=] & _).
Qed.


Lemma bind_Raise_l {A B} (e : exn) (k : A → result B) :
  Raise e ≫= k = Raise e.
Proof. reflexivity. Qed.

(** ** [int32] fields *)

Lemma int32_field_Return (n m : Z) :
  int32_field n = Return m ↔ m = n ∧ in_int32 n.
Proof.
  unfold int32_field, in_int32. case_bool_decide; split.
  - by intros [= <-].
  - by intros [-> _].
  - done.
  - by intros [_ ?].
Qed.

Lemma int32_field_Raise (n : Z) (e : exn) :
  int32_field n = Raise e
  ↔ ¬ in_int32 n ∧ e = ValueError ("Value out of range: " +:+ pretty n).
Proof.
  unfold int32_field, in_int32. case_bool_decide; split.
  - done.
  - by intros [? _].
  - by intros [= <-].
  - by intros [_ ->].
Qed.

(** A list goes into a repeated [int32] field as it is, and only when
    each of its values fits. *)
Lemma int32_extend_Return (values stored : list Z) :
  int32_extend values = Return stored
  ↔ stored = values ∧ Forall in_int32 values.
Proof.
  revert stored. induction values as [|n rest IH]; intros stored; simpl.
  - split; [by intros [= <-]|by intros [-> _]].
  - rewrite bind_Return. split.
    + intros (m & Hm & Hrest). apply int32_field_Return in Hm as [-> Hn].
      apply bind_Return in Hrest as (rest' & Hrest & [= <-]).
      apply IH in Hrest as [-> Hall]. by split; [|constructor].
    + intros [-> Hall]. apply Forall_cons in Hall as [Hn Hall].
      exists n. split; [by apply int32_field_Return|].
      apply bind_Return. exists rest. by split; [apply IH|].
Qed.

Lemma int32_extend_Raise (values : list Z) (e : exn) :
  int32_extend values = Raise e → ¬ Forall in_int32 values.
Proof.
  intros Hrun Hall.
  assert (int32_extend values = Return values) as Hok
    by by apply int32_extend_Return.
  congruence.
Qed.

(** ** [build_toco_flags] *)

Section BuilderFacts.
Context {util : Util} {protobuf : Protobuf}.



(** C8: [target_ops] holding exactly [SELECT_TF_OPS] sets both
    select-ops toggles; holding [TFLITE_BUILTINS] and [SELECT_TF_OPS]
    sets [enable_select_tf_ops] and leaves [force_select_tf_ops]
    false. *)
Theorem build_toco_flags_select_tf_ops
    (a : TocoArgs) (target_ops : list OpsSet) (toco : TocoFlags) :
  arg_target_ops a = Some target_ops →
  build_toco_flags a = Return toco →
  ((list_to_set target_ops : gset OpsSet) = {[SELECT_TF_OPS]} →
     enable_select_tf_ops toco = true ∧ force_select_tf_ops toco = true)
  ∧ (TFLITE_BUILTINS ∈ target_ops → SELECT_TF_OPS ∈ target_ops →
     enable_select_tf_ops toco = true ∧ force_select_tf_ops toco = false).
Proof.
  intros Hops Hbuild. unfold build_toco_flags in Hbuild.
  apply bind_Return in Hbuild as (it & _ & Hbuild).
  apply bind_Return in Hbuild as (iit & _ & [= <-]). simpl.
  rewrite Hops. simpl. split.
  - intros Hset.
    assert (target_ops ≠ []) as Hne.
    { intros ->. simpl in Hset. set_solver. }
    destruct target_ops as [|o rest]; [done|].
    rewrite !andb_true_l.
    split; apply bool_decide_eq_true; [|done].
    rewrite Hset. set_solver.
  - intros Hb Hs.
    destruct target_ops as [|o rest]; [by apply elem_of_nil in Hb|].
    rewrite !andb_true_l. split.
    + apply bool_decide_eq_true. by apply elem_of_list_to_set.
    + apply bool_decide_eq_false. intros Hset.
      assert (TFLITE_BUILTINS ∈ (list_to_set (o :: rest) : gset OpsSet)) as Hin
        by by apply elem_of_list_to_set.
      rewrite Hset in Hin. set_solver.
Qed.

End BuilderFacts.

(** ** Keyword binding *)

Lemma kwarg_insert_ne {A} (kwargs : gmap string pyval) (k name : string)
    (v : pyval) (dflt : A) (as_type : pyval → option A) :
  k ≠ name →
  kwarg (<[k:=v]> kwargs) name dflt as_type = kwarg kwargs name dflt as_type.
Proof. intros Hne. unfold kwarg. by rewrite lookup_insert_ne. Qed.

Lemma bind_toco_args_insert_other (kwargs : gmap string pyval)
    (k : string) (v : pyval) :
  k ∉ toco_flags_param_names →
  bind_toco_args (<[k:=v]> kwargs) = bind_toco_args kwargs.
Proof.
  intros Hk. unfold bind_toco_args.
  rewrite !kwarg_insert_ne; [done|..];
    intros ->; apply Hk; unfold toco_flags_param_names; set_solver.
Qed.

(** C10: a keyword that names none of the parameters of
    [build_toco_flags] is absorbed by [**_] and changes nothing: the
    call with it returns, or raises, exactly what the call without it
    does. *)
Theorem build_toco_flags_ignores_unrecognized
    {util : Util} {protobuf : Protobuf}
    (kwargs : gmap string pyval) (k : string) (v : pyval) :
  k ∉ toco_flags_param_names →
  build_toco_flags_kw (<[k:=v]> kwargs) = build_toco_flags_kw kwargs.
Proof.
  intros Hk. unfold build_toco_flags_kw.
  by rewrite bind_toco_args_insert_other.
Qed.

(** ** [build_toco_convert_protos] *)

Section ProtosFacts.
Context {util : Util} {protobuf : Protobuf}.

Lemma build_input_arrays_lookup (toco : TocoFlags) (c : ConvertArgs)
    (ts : list Tensor) :
  ∀ (idx : nat) (arrays : list InputArray),
    build_input_arrays toco c idx ts = Return arrays →
    length arrays = length ts
    ∧ ∀ (i : nat) (t : Tensor), ts !! i = Some t →
        ∃ a, arrays !! i = Some a
             ∧ build_input_array toco c (idx + i) t = Return a.
Proof.
  induction ts as [|t0 rest IH]; intros idx arrays Hrun; simpl in Hrun.
  - injection Hrun as <-. split; [done|]. intros i t Hi. by destruct i.
  - apply bind_Return in Hrun as (a0 & Ha0 & Hrun).
    apply bind_Return in Hrun as (arrays' & Hrest & [= <-]).
    destruct (IH _ _ Hrest) as [Hlen Hlook]. split; [simpl; by rewrite Hlen|].
    intros [|i] t Hi; simpl in Hi.
    + injection Hi as <-. exists a0. by rewrite Nat.add_0_r.
    + destruct (Hlook i t Hi) as (a & Ha & Hbuild).
      exists a. split; [done|]. by rewrite <- Nat.add_succ_comm.
Qed.

Lemma build_input_array_shape (toco : TocoFlags) (c : ConvertArgs)
    (idx : nat) (t : Tensor) (a : InputArray) :
  build_input_array toco c idx t = Return a →
  ∃ shape, input_shape c idx t = Return shape
    ∧ match shape with
      | KnownRank dims =>
          ia_unknown_rank a = false ∧ ia_dims a = dim_entry <$> dims
      | UnknownRank => ia_unknown_rank a = true ∧ ia_dims a = []
      end.
Proof.
  unfold build_input_array. intros Hrun.
  apply bind_Return in Hrun as (data_type & _ & Hrun).
  apply bind_Return in Hrun as (stats & _ & Hrun).
  apply bind_Return in Hrun as (shape & Hshape & Hrun).
  exists shape. split; [done|]. destruct shape as [|dims].
  - by injection Hrun as <-.
  - apply bind_Return in Hrun as (stored & Hdims & [= <-]).
    by apply int32_extend_Return in Hdims as [-> _].
Qed.

(** C6, as amended: each built input array follows the shape the
    builder takes for its tensor, which is [input_shapes[idx]] when
    [input_shapes] is given and the tensor's own shape otherwise.  A
    shape of known rank gives [unknown_rank = false] and its
    dimensions in order, [-1] standing for each unknown one; a shape
    of unknown rank gives [unknown_rank = true] and no dimensions. *)
Theorem build_toco_convert_protos_shapes
    (input_tensors output_tensors : list Tensor) (c : ConvertArgs)
    (model : ModelFlags) (toco : TocoFlags) (debug_info : option string) :
  build_toco_convert_protos input_tensors output_tensors c
    = Return (model, toco, debug_info) →
  length (input_arrays model) = length input_tensors
  ∧ ∀ (idx : nat) (input_tensor : Tensor),
      input_tensors !! idx = Some input_tensor →
      ∃ input_array shape,
        input_arrays model !! idx = Some input_array
        ∧ input_shape c idx input_tensor = Return shape
        ∧ match shape with
          | KnownRank dims =>
              ia_unknown_rank input_array = false
              ∧ ia_dims input_array = dim_entry <$> dims
          | UnknownRank =>
              ia_unknown_rank input_array = true
              ∧ ia_dims input_array = []
          end.
Proof.
  unfold build_toco_convert_protos. intros Hrun.
  apply bind_Return in Hrun as (toco' & _ & Hrun).
  apply bind_Return in Hrun as (arrays & Harrays & [= <- <- <-]). simpl.
  destruct (build_input_arrays_lookup _ _ _ _ _ Harrays) as [Hlen Hlook].
  split; [done|]. intros idx t Hidx.
  destruct (Hlook idx t Hidx) as (a & Ha & Hbuild). simpl in Hbuild.
  destruct (build_input_array_shape _ _ _ _ _ Hbuild) as (shape & ? & ?).
  by exists a, shape.
Qed.

(** With [input_shapes] left at [None] the shape taken is the
    tensor's own. *)
Lemma input_shape_default (c : ConvertArgs) (idx : nat) (t : Tensor) :
  arg_input_shapes c = None → input_shape c idx t = Return (tensor_shape t).
Proof. unfold input_shape. by intros ->. Qed.

End ProtosFacts.

(** ** Input statistics *)

Section StatsFacts.
Context {util : Util} {protobuf : Protobuf}.

(** Where statistics are required and given, the tensor-based builder
    assigns the pair at the tensor's position to the two float fields. *)
Lemma build_input_array_stats (toco : TocoFlags) (c : ConvertArgs)
    (idx : nat) (t : Tensor) (a : InputArray)
    (stats : list (pyfloat * pyfloat)) :
  _requires_input_stats toco = true →
  arg_quantized_input_stats c = Some stats → stats ≠ [] →
  build_input_array toco c idx t = Return a →
  ∃ mean std, stats !! idx = Some (mean, std)
              ∧ ia_mean_value a = Some (float_field mean)
              ∧ ia_std_value a = Some (float_field std).
Proof.
  intros Hreq Hstats Hne. unfold build_input_array.
  rewrite Hreq, Hstats. destruct stats as [|s0 stats']; [done|].
  simpl truthy_list. simpl items. rewrite andb_true_l. intros Hrun.
  apply bind_Return in Hrun as (data_type & _ & Hrun).
  apply bind_Return in Hrun as (st & Hst & Hrun).
  apply bind_Return in Hrun as (shape & _ & Hrun).
  apply bind_Return in Hst as ([mean std] & Hidx & [= <-]).
  unfold py_index in Hidx.
  destruct ((s0 :: stats') !! idx) as [p|] eqn:Hp; [|done].
  injection Hidx as ->. exists mean, std. destruct shape as [|dims].
  - by injection Hrun as <-.
  - by apply bind_Return in Hrun as (stored & _ & [= <-]).
Qed.



End StatsFacts.

(** C2, at the input where the code departs from it: uint8 inference,
    no post-training quantisation, one input tensor and no
    [quantized_input_stats].  [build_toco_convert_protos] returns its
    protos, the flags do require input statistics, and the input array
    is left without mean and standard deviation: no error is raised. *)
Example build_toco_convert_protos_accepts_missing_stats :
  ∃ model toco input_array,
    build_toco_convert_protos (util:=Sample.util) (protobuf:=Sample.protobuf) [Sample.image] []
        (Sample.with_toco_args Sample.uint8_toco_args)
      = Return (model, toco, None)
    ∧ arg_quantized_input_stats (Sample.with_toco_args Sample.uint8_toco_args)
      = None
    ∧ _requires_input_stats toco = true
    ∧ input_arrays model = [input_array]
    ∧ ia_mean_value input_array = None
    ∧ ia_std_value input_array = None.
Proof. eexists _, _, _. split_and!; reflexivity. Qed.

(** The sibling entry point does raise on the same request. *)
Example toco_convert_graph_def_protos_rejects_missing_stats :
  toco_convert_graph_def_protos (util:=Sample.util) (protobuf:=Sample.protobuf) [("input", [1; 224; 224; 3])]
      ["output"] (Sample.with_toco_args Sample.uint8_toco_args)
    = Raise (ValueError stats_error_message).
Proof. reflexivity. Qed.

(** ** Examples for the builder theorems *)


Lemma build_toco_flags_select_tf_ops_witness :
  ∃ toco,
    build_toco_flags (util:=Sample.util) (protobuf:=Sample.protobuf) (Sample.with_target_ops [SELECT_TF_OPS])
      = Return toco
    ∧ enable_select_tf_ops toco = true ∧ force_select_tf_ops toco = true.
Proof.
  eexists. split; [reflexivity|].
  refine (proj1 (build_toco_flags_select_tf_ops (util:=Sample.util) (protobuf:=Sample.protobuf)
                   (Sample.with_target_ops [SELECT_TF_OPS]) [SELECT_TF_OPS]
                   _ eq_refl eq_refl) _).
  vm_compute. reflexivity.
Defined.

Lemma build_toco_flags_ignores_unrecognized_witness :
  build_toco_flags_kw (util:=Sample.util) (protobuf:=Sample.protobuf)
    (<["enable_mlir_converter" := PyBool false]>
       {["inference_type" := PyDType uint8]})
  = build_toco_flags_kw (util:=Sample.util) (protobuf:=Sample.protobuf) {["inference_type" := PyDType uint8]}.
Proof.
  apply (build_toco_flags_ignores_unrecognized (util:=Sample.util) (protobuf:=Sample.protobuf)).
  apply (bool_decide_unpack
           ("enable_mlir_converter" ∉ toco_flags_param_names)).
  vm_compute. exact I.
Defined.

Lemma build_toco_convert_protos_shapes_witness :
  ∃ model toco,
    build_toco_convert_protos (util:=Sample.util) (protobuf:=Sample.protobuf) [Sample.image] []
      default_convert_args = Return (model, toco, None)
    ∧ length (input_arrays model) = 1%nat
    ∧ ∃ input_array,
        input_arrays model !! 0%nat = Some input_array
        ∧ ia_unknown_rank input_array = false
        ∧ ia_dims input_array = [1; 224; 224; -1].
Proof.
  eexists _, _. split; [reflexivity|].
  destruct (build_toco_convert_protos_shapes (util:=Sample.util) (protobuf:=Sample.protobuf)
              [Sample.image] [] default_convert_args _ _ None eq_refl)
    as [Hlen Hshapes].
  split; [exact Hlen|].
  destruct (Hshapes 0%nat Sample.image eq_refl)
    as (input_array & shape & Hlook & Hshape & Hdims).
  exists input_array. split; [exact Hlook|].
  injection Hshape as <-. exact Hdims.
Defined.

(** C6 as stated, refuted: the tensor below has shape
    [1, 224, 224, None], [input_shapes] gives [1, 224, 224, 3] for it,
    and the built input array carries the dimensions of [input_shapes],
    not the tensor's own with [-1] for the unknown one. *)
Lemma input_shapes_override_tensor_shape :
  ¬ (∀ (model : ModelFlags) (toco : TocoFlags) (debug_info : option string),
       build_toco_convert_protos (util:=Sample.util) (protobuf:=Sample.protobuf) [Sample.image] []
         (Sample.with_input_shapes
            [KnownRank [DimInt 1; DimInt 224; DimInt 224; DimInt 3]])
         = Return (model, toco, debug_info) →
       ∀ (idx : nat) (input_tensor : Tensor) (input_array : InputArray),
         [Sample.image] !! idx = Some input_tensor →
         input_arrays model !! idx = Some input_array →
         match tensor_shape input_tensor with
         | KnownRank dims =>
             ia_unknown_rank input_array = false
             ∧ ia_dims input_array = dim_entry <$> dims
         | UnknownRank =>
             ia_unknown_rank input_array = true ∧ ia_dims input_array = []
         end).
Proof.
  intros Hclaim.
  edestruct (Hclaim _ _ _ eq_refl 0%nat _ _ eq_refl eq_refl) as [_ Hdims].
  discriminate Hdims.
Qed.

(** ** Reasoning about [IO] *)

Lemma run_bind {S A B} (c : IO S A) (k : A → IO S B) (s : S) :
  run (c ≫= k) s
  = match run c s with
    | (Return a, s') => run (k a) s'
    | (Raise e, s') => (Raise e, s')
    end.
Proof. reflexivity. Qed.

Lemma run_bind_Return {S A B} (c : IO S A) (k : A → IO S B) (s s' : S) (b : B) :
  run (c ≫= k) s = (Return b, s') ↔
  ∃ a s1, run c s = (Return a, s1) ∧ run (k a) s1 = (Return b, s').
Proof.
  rewrite run_bind. destruct (run c s) as [[a|e] s1]; split.
  - intros Hk. by exists a, s1.
  - by intros (a' & s1' & [= <- <-] & Hk).
  - discriminate.
  - by intros (a' & s1' & [=] & _).
Qed.

Lemma run_in_world {A} (c : IO World A) (w : World) (l : Locals) :
  run (in_world c) (w, l) = ((run c w).1, ((run c w).2, l)).
Proof. simpl. by destruct (run c w). Qed.

Section Preservation.
Context {S : Type} (R : S → S → Prop) `{!PreOrder R}.

Lemma preserves_ret {A} (a : A) : preserves R (mret a : IO S A).
Proof. intros s. simpl. reflexivity. Qed.

Lemma preserves_raise {A} (e : exn) : preserves R (raise e : IO S A).
Proof. intros s. simpl. reflexivity. Qed.

Lemma preserves_lift_result {A} (r : result A) :
  preserves R (lift_result r : IO S A).
Proof. intros s. simpl. reflexivity. Qed.

Lemma preserves_as_str (v : option string) : preserves R (as_str v : IO S string).
Proof. destruct v; [apply preserves_ret|apply preserves_raise]. Qed.

Lemma preserves_bind {A B} (c : IO S A) (k : A → IO S B) :
  preserves R c → (∀ a, preserves R (k a)) → preserves R (c ≫= k).
Proof.
  intros Hc Hk s. rewrite run_bind. specialize (Hc s).
  destruct (run c s) as [[a|e] s1]; simpl in *; [|done].
  etrans; [exact Hc|apply Hk].
Qed.

Lemma preserves_try_finally {A} (body : IO S A) (final : IO S unit) :
  preserves R body → preserves R final → preserves R (try_finally body final).
Proof.
  intros Hb Hf s. unfold try_finally. simpl.
  specialize (Hb s). destruct (run body s) as [r s1]. simpl in Hb.
  specialize (Hf s1). destruct (run final s1) as [[u|e] s2]; simpl in *;
    by etrans.
Qed.

Lemma preserves_try_except {A} (body : IO S A) (caught : exn → bool)
    (handler : exn → IO S A) :
  preserves R body → (∀ e, preserves R (handler e)) →
  preserves R (try_except body caught handler).
Proof.
  intros Hb Hh s. unfold try_except. simpl.
  specialize (Hb s). destruct (run body s) as [[a|e] s1]; simpl in *; [done|].
  destruct (caught e); [|done]. etrans; [exact Hb|apply Hh].
Qed.

Lemma preserves_for_each {A} (xs : list A) (body : A → IO S unit) :
  (∀ x, preserves R (body x)) → preserves R (for_each xs body).
Proof.
  intros Hb. induction xs as [|x rest IH]; simpl.
  - apply preserves_ret.
  - apply preserves_bind; [apply Hb|done].
Qed.

End Preservation.

#[global] Instance on_world_preorder (R : World → World → Prop) :
  PreOrder R → PreOrder (on_world R).
Proof.
  intros [Hrefl Htrans]. split.
  - intros f. apply Hrefl.
  - intros f1 f2 f3. apply Htrans.
Qed.

Lemma preserves_in_world {A} (R : World → World → Prop) (c : IO World A) :
  preserves R c → preserves (on_world R) (in_world c).
Proof. intros Hc [w l]. rewrite run_in_world. apply Hc. Qed.

Lemma preserves_assign (R : World → World → Prop) `{!Reflexive R}
    (f : Locals → Locals) :
  preserves (on_world R) (assign f).
Proof. intros [w l]. unfold on_world. simpl. reflexivity. Qed.

Lemma preserves_locals (R : World → World → Prop) `{!Reflexive R} :
  preserves (on_world R) locals.
Proof. intros [w l]. unfold on_world. simpl. reflexivity. Qed.

Lemma preserves_with_locals {A} (R : World → World → Prop) (l : Locals)
    (c : IO Frame A) :
  preserves (on_world R) c → preserves R (with_locals l c).
Proof.
  intros Hc w. unfold with_locals. simpl. specialize (Hc (w, l)).
  by destruct (run c (w, l)) as [r [w' l']].
Qed.

(** ** What the dispatcher does to the trace *)

#[global] Instance same_trace_preorder : PreOrder same_trace.
Proof.
  split.
  - by intros w.
  - intros w1 w2 w3 H12 H23. unfold same_trace in *. congruence.
Qed.

#[global] Instance only_spawns_preorder : PreOrder only_spawns.
Proof.
  split.
  - intros w. exists []. by rewrite app_nil_r.
  - intros w1 w2 w3 (evs1 & H1 & Hf1) (evs2 & H2 & Hf2).
    exists (evs1 ++ evs2). split.
    + by rewrite H2, H1, app_assoc.
    + by apply Forall_app.
Qed.

Lemma same_trace_only_spawns {A} (c : IO World A) :
  preserves same_trace c → preserves only_spawns c.
Proof.
  intros Hc w. exists []. split; [|done]. rewrite app_nil_r. apply Hc.
Qed.

Lemma NamedTemporaryFile_same_trace : preserves same_trace NamedTemporaryFile.
Proof.
  intros w. unfold NamedTemporaryFile. simpl.
  by destruct (fresh_name (tmp_names w) (files w)) as [[name rest]|].
Qed.

Lemma write_same_trace (name data : string) : preserves same_trace (write name data).
Proof. by intros w. Qed.

Lemma read_file_same_trace (path : string) : preserves same_trace (read_file path).
Proof. intros w. unfold read_file. simpl. by destruct (files w !! path). Qed.

Lemma unlink_same_trace (filename : option string) :
  preserves same_trace (unlink filename).
Proof.
  intros w. unfold unlink. simpl. destruct filename as [path|]; [|done].
  by destruct (isfile path w).
Qed.

Section DispatchFacts.
Context {runtime : Runtime}.
Variable bin : string.

Lemma Popen_communicate_only_spawns (cmdline : string) :
  preserves only_spawns (Popen_communicate cmdline).
Proof.
  intros w. unfold Popen_communicate. simpl.
  destruct (shell cmdline (search_path w) (files w)) as [[exitcode out] fs].
  simpl. exists [ProcessSpawn cmdline]. split; [done|].
  apply Forall_singleton. by exists cmdline.
Qed.

Lemma build_input_files_same_trace (m t : string) (i : option string)
    (d : option pystr) :
  preserves (on_world same_trace) (build_input_files m t i d).
Proof.
  unfold build_input_files.
  repeat first
    [ apply preserves_bind; [apply _| |intros ?]
    | apply preserves_in_world, NamedTemporaryFile_same_trace
    | apply preserves_in_world, write_same_trace
    | apply preserves_assign; apply _
    | apply preserves_lift_result; apply _ ].
  destruct (if truthy_pystr d then default (PyText "") d else PyText "");
    apply preserves_in_world, write_same_trace.
Qed.

Lemma reserve_output_file_same_trace :
  preserves (on_world same_trace) reserve_output_file.
Proof.
  unfold reserve_output_file.
  apply preserves_bind; [apply _| |intros ?].
  - apply preserves_in_world, NamedTemporaryFile_same_trace.
  - apply preserves_assign; apply _.
Qed.

Lemma cleanup_files_same_trace :
  preserves (on_world same_trace) cleanup_files.
Proof.
  unfold cleanup_files.
  apply preserves_bind; [apply _|apply preserves_locals; apply _|intros l].
  apply preserves_for_each; [apply _|]. intros filename.
  apply preserves_try_except; [apply _| |intros e; apply preserves_ret; apply _].
  apply preserves_in_world, unlink_same_trace.
Qed.

Lemma on_world_same_trace_only_spawns {A} (c : IO Frame A) :
  preserves (on_world same_trace) c → preserves (on_world only_spawns) c.
Proof.
  intros Hc f. exists []. split; [|done]. rewrite app_nil_r. apply Hc.
Qed.

Lemma run_toco_from_protos_only_spawns (mlir : bool) :
  preserves (on_world only_spawns) (run_toco_from_protos bin mlir).
Proof.
  unfold run_toco_from_protos.
  apply preserves_bind; [apply _|apply preserves_locals; apply _|intros l].
  do 5 (apply preserves_bind; [apply _|apply preserves_as_str; apply _|intros ?]).
  apply preserves_bind; [apply _| |intros [[stdout stderr] exitcode]].
  - apply preserves_in_world, Popen_communicate_only_spawns.
  - case_bool_decide.
    + apply preserves_in_world, same_trace_only_spawns, read_file_same_trace.
    + apply preserves_raise; apply _.
Qed.

Lemma toco_convert_protos_only_spawns (m t : string) (i : option string)
    (d : option pystr) (mlir : bool) :
  mlir || bool_decide (bin = "") = false →
  preserves only_spawns (toco_convert_protos bin m t i d mlir).
Proof.
  intros Hcond. unfold toco_convert_protos. rewrite Hcond.
  apply preserves_bind; [apply _| |intros [found|]].
  - intros w. simpl. reflexivity.
  - apply preserves_with_locals, preserves_try_finally; [apply _| |].
    + apply preserves_bind; [apply _| |intros ?].
      { apply on_world_same_trace_only_spawns, build_input_files_same_trace. }
      apply preserves_bind; [apply _| |intros ?].
      { apply on_world_same_trace_only_spawns, reserve_output_file_same_trace. }
      apply run_toco_from_protos_only_spawns.
    + apply on_world_same_trace_only_spawns, cleanup_files_same_trace.
  - apply preserves_raise; apply _.
Qed.

Lemma toco_convert_protos_in_process (m t : string) (i : option string)
    (d : option pystr) (mlir : bool) (w : World) :
  mlir || bool_decide (bin = "") = true →
  run (toco_convert_protos bin m t i d mlir) w
  = (match wrapped_toco_convert m t i d mlir with
     | Return model_str => Return model_str
     | Raise e => Raise (ConverterError (str_exn e))
     end,
     log (InProcessCall m t i d mlir) w).
Proof.
  intros Hcond. unfold toco_convert_protos. rewrite Hcond.
  unfold try_except, call_wrapped_toco_convert. simpl.
  by destruct (wrapped_toco_convert _ _ _ _ _).
Qed.

(** C4: the in-process converter is called exactly when
    [enable_mlir_converter] holds or no helper binary is configured.
    On that branch the call is the only thing that happens: its bytes
    are returned as they are, and an exception [e] it raises comes
    back as [ConverterError(str(e))].  On the other branch the trace
    grows by process spawns at most, never by an in-process call. *)
Theorem toco_convert_protos_backend_choice (model_flags_str toco_flags_str : string)
    (input_data_str : option string) (debug_info_str : option pystr)
    (enable_mlir_converter : bool) (w : World) :
  if enable_mlir_converter || bool_decide (bin = "") then
    run (toco_convert_protos bin model_flags_str toco_flags_str
           input_data_str debug_info_str enable_mlir_converter) w
    = (match wrapped_toco_convert model_flags_str toco_flags_str
               input_data_str debug_info_str enable_mlir_converter with
       | Return model_str => Return model_str
       | Raise e => Raise (ConverterError (str_exn e))
       end,
       log (InProcessCall model_flags_str toco_flags_str input_data_str
              debug_info_str enable_mlir_converter) w)
  else
    ∃ spawns,
      trace (run (toco_convert_protos bin model_flags_str toco_flags_str
                    input_data_str debug_info_str enable_mlir_converter) w).2
      = trace w ++ spawns
      ∧ Forall is_spawn spawns.
Proof.
  destruct (enable_mlir_converter || bool_decide (bin = "")) eqn:Hcond.
  - by apply toco_convert_protos_in_process.
  - by apply toco_convert_protos_only_spawns.
Qed.

(** C5: with the helper binary configured at import, whatever the
    host looked like then, a dispatch on a host where the binary is
    not found raises the [ConverterError] that tells the operator to
    put the tool on the search path, and leaves the host as it was: no
    temporary file is created and no process is spawned. *)
Theorem toco_convert_protos_missing_binary
    (EXPERIMENTAL_USE_TOCO_API_DIRECTLY : bool) (datafile : string)
    (w_import : World)
    (model_flags_str toco_flags_str : string)
    (input_data_str : option string) (debug_info_str : option pystr)
    (w : World) :
  let configured :=
    import_toco_from_proto_bin EXPERIMENTAL_USE_TOCO_API_DIRECTLY datafile
      w_import in
  configured ≠ "" →
  find_executable configured w = None →
  run (toco_convert_protos configured model_flags_str toco_flags_str
         input_data_str debug_info_str false) w
  = (Raise (ConverterError not_found_message), w)
  ∧ contains not_found_message "bin directory is in your path".
Proof.
  intros configured Hbin Hfind. split.
  - unfold toco_convert_protos.
    rewrite orb_false_l, bool_decide_eq_false_2 by done.
    rewrite run_bind. simpl. by rewrite Hfind.
  - exists ("Could not find toco_from_protos binary, make sure" +:+ nl
            +:+ "your virtualenv bin directory or pip local "),
      ("." +:+ nl
       +:+ "In particular, if you have installed TensorFlow with --user, make sure you"
       +:+ nl +:+ "add the install directory to your path." +:+ nl +:+ nl
       +:+ "For example:" +:+ nl
       +:+ "Linux: export PATH=$PATH:~/.local/bin/" +:+ nl
       +:+ "Mac: export PATH=$PATH:~/Library/Python/<version#>/bin" +:+ nl
       +:+ nl +:+ "Alternative, use virtualenv.").
    reflexivity.
Qed.


End DispatchFacts.

(** ** The out-of-process branch *)

Lemma for_each_returns {S A} (xs : list A) (body : A → IO S unit) :
  (∀ x s, (run (body x) s).1 = Return ()) →
  ∀ s, (run (for_each xs body) s).1 = Return ().
Proof.
  intros Hbody. induction xs as [|x rest IH]; intros s; simpl; [done|].
  specialize (Hbody x s). destruct (run (body x) s) as [[[]|e] s1];
    simpl in *; [apply IH|done].
Qed.

Lemma try_finally_result {S A} (body : IO S A) (final : IO S unit) (s : S) :
  (∀ s1, (run final s1).1 = Return ()) →
  (run (try_finally body final) s).1 = (run body s).1.
Proof.
  intros Hfinal. unfold try_finally. simpl.
  destruct (run body s) as [r s1]. specialize (Hfinal s1).
  by destruct (run final s1) as [[[]|e] s2].
Qed.

(** The [finally] block swallows every failure of [os.unlink]. *)
Lemma cleanup_files_returns (f : Frame) : (run cleanup_files f).1 = Return ().
Proof.
  unfold cleanup_files. rewrite run_bind. destruct f as [w l]. cbn [locals run].
  apply for_each_returns. intros filename [w1 l1].
  unfold try_except. cbn [run]. rewrite run_in_world.
  unfold unlink. cbn [run]. destruct filename as [path|]; [|done].
  by destruct (isfile path w1).
Qed.

Lemma run_in_world_Return {A} (c : IO World A) (w w' : World) (l l' : Locals)
    (a : A) :
  run (in_world c) (w, l) = (Return a, (w', l')) →
  run c w = (Return a, w') ∧ l' = l.
Proof.
  rewrite run_in_world. intros [= Hr Hw <-]. split; [|done].
  destruct (run c w); simpl in *. by subst.
Qed.

Lemma run_assign_Return (f : Locals → Locals) (w w' : World) (l l' : Locals)
    (u : unit) :
  run (assign f) (w, l) = (Return u, (w', l')) → w' = w ∧ l' = f l.
Proof. by intros [= <- <-]. Qed.

Lemma run_lift_result_Return {S A} (r : result A) (s s' : S) (a : A) :
  run (lift_result r) s = (Return a, s') → r = Return a ∧ s' = s.
Proof. by intros [= -> <-]. Qed.

(** One step of running a successful computation backwards. *)
Ltac inv_run_step :=
  match goal with
  | H : run (in_world _) _ = (Return _, _) |- _ =>
      apply run_in_world_Return in H as [_ ->]
  | H : run (assign _) _ = (Return _, _) |- _ =>
      apply run_assign_Return in H as [-> ->]
  | H : run (lift_result _) _ = (Return _, _) |- _ =>
      apply run_lift_result_Return in H as [_ [= -> ->]]
  | H : run (_ ≫= _) _ = (Return _, _) |- _ =>
      apply run_bind_Return in H as (? & [? ?] & ? & ?)
  end.

Section OutOfProcessFacts.
Context {runtime : Runtime}.
Variable bin : string.

(** Once the input files are built and the output file is reserved,
    all five file-name locals are bound. *)
Lemma staged_locals (m t : string) (i : option string) (d : option pystr)
    (w w1 : World) (l : Locals) :
  run (build_input_files m t i d;; reserve_output_file) (w, no_locals)
    = (Return (), (w1, l)) →
  ∃ toco model input output debug,
    l = {| toco_filename := Some toco; model_filename := Some model;
           input_filename := Some input; output_filename := Some output;
           debug_filename := Some debug |}.
Proof.
  intros Hrun.
  apply run_bind_Return in Hrun as (u & [wa la] & Hbuild & Hreserve).
  unfold build_input_files in Hbuild. unfold reserve_output_file in Hreserve.
  repeat (inv_run_step; cbv beta in * ).
  destruct (if truthy_pystr d then default (PyText "") d else PyText "");
    inv_run_step; by eexists _, _, _, _, _.
Qed.

Lemma with_locals_result {A} (l : Locals) (c : IO Frame A) (w : World) :
  (run (with_locals l c) w).1 = (run c (w, l)).1.
Proof.
  unfold with_locals. cbn [run]. by destruct (run c (w, l)) as [r [w' l']].
Qed.

Lemma run_ret_bind {S A B} (a : A) (k : A → IO S B) (s : S) :
  run (mret a ≫= k) s = run (k a) s.
Proof. reflexivity. Qed.

Lemma run_seq_assoc {S A B C} (a : IO S A) (b : IO S B) (c : IO S C) (s : S) :
  run (a;; b;; c) s = run ((a;; b);; c) s.
Proof.
  rewrite !run_bind. destruct (run a s) as [[x|e] s1]; [|done].
  by rewrite run_bind.
Qed.

(** What the last part of the [try] body does in a frame whose
    file-name locals are all bound. *)
Lemma run_toco_from_protos_bound (toco model input output debug : string)
    (w1 : World) :
  let l := {| toco_filename := Some toco; model_filename := Some model;
              input_filename := Some input; output_filename := Some output;
              debug_filename := Some debug |} in
  let cmdline :=
    String.concat " "
      [bin; model; toco; input; output; "--debug_proto_file=" +:+ debug] in
  let '(exitcode, captured, fs) :=
    shell cmdline (search_path w1) (files w1) in
  (run (run_toco_from_protos bin false) (w1, l)).1
  = if bool_decide (exitcode = 0) then
      match fs !! output with
      | Some contents => Return contents
      | None => Raise (OSError "No such file or directory")
      end
    else
      Raise (ConverterError
               ("See console for info." +:+ nl
                +:+ format_s (_try_convert_to_unicode (Some (PyBytes captured)))
                +:+ nl +:+ format_s (_try_convert_to_unicode None) +:+ nl)).
Proof.
  intros l cmdline.
  destruct (shell cmdline (search_path w1) (files w1))
    as [[exitcode captured] fs] eqn:Hshell.
  unfold run_toco_from_protos. rewrite run_bind. cbn [locals run].
  subst l. cbn [model_filename toco_filename input_filename
                output_filename debug_filename as_str].
  rewrite !run_ret_bind. rewrite app_nil_r. fold cmdline.
  rewrite run_bind, run_in_world. unfold Popen_communicate. cbn [run].
  rewrite Hshell. cbn [fst snd].
  case_bool_decide.
  - rewrite run_in_world. unfold read_file. cbn [run fst files set_files log].
    by destruct (fs !! output).
  - reflexivity.
Qed.

(** Past the search for the binary, the outcome of a dispatch is the
    outcome of its [try] body: the [finally] block never raises. *)
Lemma toco_convert_protos_outcome (m t : string) (i : option string)
    (d : option pystr) (w : World) :
  bin ≠ "" → is_Some (find_executable bin w) →
  (run (toco_convert_protos bin m t i d false) w).1
  = (run (build_input_files m t i d;; reserve_output_file;;
          run_toco_from_protos bin false) (w, no_locals)).1.
Proof.
  intros Hbin [exe Hfind]. unfold toco_convert_protos.
  rewrite orb_false_l, bool_decide_eq_false_2 by done.
  rewrite run_bind. cbn [run]. rewrite Hfind.
  rewrite with_locals_result.
  by rewrite try_finally_result by apply cleanup_files_returns.
Qed.

(** C3: on the out-of-process branch, once the temporary files are in
    place the helper is run on the command line built from their
    names.  If it exits with 0, the function returns the bytes the
    output file then holds; if it exits with anything else, the
    function raises a [ConverterError] whose message contains the
    captured output as [%s] prints it, which is the captured text
    itself when it decodes. *)
Theorem toco_convert_protos_exit_code (model_flags_str toco_flags_str : string)
    (input_data_str : option string) (debug_info_str : option pystr)
    (w w1 : World) (l : Locals) :
  bin ≠ "" →
  is_Some (find_executable bin w) →
  run (build_input_files model_flags_str toco_flags_str input_data_str
         debug_info_str;; reserve_output_file) (w, no_locals)
    = (Return (), (w1, l)) →
  ∃ toco model input output debug,
    l = {| toco_filename := Some toco; model_filename := Some model;
           input_filename := Some input; output_filename := Some output;
           debug_filename := Some debug |}
    ∧ let cmdline :=
        String.concat " "
          [bin; model; toco; input; output; "--debug_proto_file=" +:+ debug] in
      let '(exitcode, captured, fs) :=
        shell cmdline (search_path w1) (files w1) in
      let outcome :=
        (run (toco_convert_protos bin model_flags_str toco_flags_str
                input_data_str debug_info_str false) w).1 in
      if bool_decide (exitcode = 0) then
        ∀ contents, fs !! output = Some contents → outcome = Return contents
      else
        ∃ msg,
          outcome = Raise (ConverterError msg)
          ∧ contains msg
              (format_s (_try_convert_to_unicode (Some (PyBytes captured))))
          ∧ (utf8_valid captured = true → contains msg captured).
Proof.
  intros Hbin Hfind Hstage.
  destruct (staged_locals _ _ _ _ _ _ _ Hstage)
    as (toco & model & input & output & debug & ->).
  exists toco, model, input, output, debug. split; [done|].
  intros cmdline.
  pose proof (toco_convert_protos_outcome model_flags_str toco_flags_str
                input_data_str debug_info_str w Hbin Hfind) as Houtcome.
  rewrite run_seq_assoc, run_bind, Hstage in Houtcome.
  pose proof (run_toco_from_protos_bound toco model input output debug w1)
    as Hrun.
  cbv zeta in Hrun. fold cmdline in Hrun.
  destruct (shell cmdline (search_path w1) (files w1))
    as [[exitcode captured] fs].
  rewrite Hrun in Houtcome. clear Hrun. cbv zeta.
  case_bool_decide.
  - intros contents Hcontents. by rewrite Houtcome, Hcontents.
  - eexists. split; [exact Houtcome|]. split.
    + by exists ("See console for info." +:+ nl),
                (nl +:+ format_s (_try_convert_to_unicode None) +:+ nl).
    + intros Hvalid. unfold _try_convert_to_unicode. rewrite Hvalid.
      by exists ("See console for info." +:+ nl), (nl +:+ "" +:+ nl).
Qed.

End OutOfProcessFacts.

(** ** The dispatcher on the sample host *)

Lemma toco_convert_protos_exit_code_witness :
  (run (toco_convert_protos (runtime:=Sample.runtime) "toco_from_protos"
          "model" "flags" (Some "graph") None false) Sample.world).1
  = Return "TFL3".
Proof.
  destruct (toco_convert_protos_exit_code (runtime:=Sample.runtime)
              "toco_from_protos" "model" "flags" (Some "graph") None
              Sample.world _ _ ltac:(done) ltac:(by eexists) eq_refl)
    as (toco & model & input & output & debug & Hl & Hspec).
  vm_compute in Hl. injection Hl as <- <- <- <- <-.
  vm_compute in Hspec. vm_compute. exact (Hspec "TFL3" eq_refl).
Defined.

Lemma toco_convert_protos_missing_binary_witness :
  run (toco_convert_protos (runtime:=Sample.runtime) "toco_from_protos"
         "model" "flags" (Some "graph") None false)
      Sample.world_without_helper
  = (Raise (ConverterError not_found_message), Sample.world_without_helper)
  ∧ contains not_found_message "bin directory is in your path".
Proof.
  apply (toco_convert_protos_missing_binary (runtime:=Sample.runtime) false
           "/opt/tensorflow/lite/toco/python/toco_from_protos" Sample.world
           "model" "flags" (Some "graph") None Sample.world_without_helper).
  - vm_compute. discriminate.
  - reflexivity.
Defined.

(** C1, at an input where the code departs from it: a dispatch through
    the helper that succeeds.  The helper is given /tmp/t4 as its
    debug-info file; after the call the four files the [finally] block
    lists are gone and /tmp/t4, which did not exist before, is still
    there. *)
Example toco_convert_protos_leaves_debug_file :
  let call :=
    toco_convert_protos (runtime:=Sample.runtime) "toco_from_protos"
      "model" "flags" (Some "graph") None false in
  (run call Sample.world).1 = Return "TFL3"
  ∧ trace (run call Sample.world).2
    = [ProcessSpawn
         "toco_from_protos /tmp/t2 /tmp/t1 /tmp/t3 /tmp/t5 --debug_proto_file=/tmp/t4"]
  ∧ files Sample.world !! "/tmp/t4" = None
  ∧ files (run call Sample.world).2 !! "/tmp/t4" = Some ""
  ∧ files (run call Sample.world).2 !! "/tmp/t1" = None
  ∧ files (run call Sample.world).2 !! "/tmp/t2" = None
  ∧ files (run call Sample.world).2 !! "/tmp/t3" = None
  ∧ files (run call Sample.world).2 !! "/tmp/t5" = None.
Proof. vm_compute. by split_and!. Qed.

(** The same on the two failing exits: a helper that exits with 1, and
    an [input_data_str] of [None], on which [six.ensure_binary] raises
    before any process is started. *)
Example toco_convert_protos_leaves_debug_file_on_failure :
  let failed :=
    toco_convert_protos (runtime:=Sample.runtime) "toco_from_protos"
      "unsupported" "flags" (Some "graph") None false in
  let raised :=
    toco_convert_protos (runtime:=Sample.runtime) "toco_from_protos"
      "model" "flags" None None false in
  (∃ msg, (run failed Sample.world).1 = Raise (ConverterError msg))
  ∧ files (run failed Sample.world).2 !! "/tmp/t4" = Some ""
  ∧ (∃ msg, (run raised Sample.world).1 = Raise (TypeError msg))
  ∧ trace (run raised Sample.world).2 = []
  ∧ files (run raised Sample.world).2 !! "/tmp/t4" = Some "".
Proof. vm_compute. split_and!; eauto. Qed.

(** When [tempfile] runs out of names while the input files are being
    created, the names of the files already created were never assigned:
    the [finally] block unlinks nothing and those files stay too. *)
Example toco_convert_protos_leaves_files_when_creation_fails :
  let host := set_tmp_names ["/tmp/t1"; "/tmp/t2"] Sample.world in
  let call :=
    toco_convert_protos (runtime:=Sample.runtime) "toco_from_protos"
      "model" "flags" (Some "graph") None false in
  (∃ msg, (run call host).1 = Raise (OSError msg))
  ∧ files (run call host).2 !! "/tmp/t1" = Some ""
  ∧ files (run call host).2 !! "/tmp/t2" = Some "".
Proof. vm_compute. split_and!; eauto. Qed.

(** * Further properties of the module *)

(** ** More on [build_toco_flags] *)

Section MoreFlagsFacts.
Context {util : Util} {protobuf : Protobuf}.

(** X2: an empty list for [custom_opdefs], [select_user_tf_ops] or
    [target_ops], and an empty string for [dump_graphviz_dir] or
    [conversion_summary_dir], give the flags that [None] gives. *)
Theorem build_toco_flags_drop_falsy (a : TocoArgs) :
  build_toco_flags (drop_falsy a) = build_toco_flags a.
Proof.
  unfold build_toco_flags, drop_falsy, none_if_empty, none_if_blank.
  cbn [arg_inference_type arg_inference_input_type arg_input_format
       arg_output_format arg_default_ranges_stats arg_drop_control_dependency
       arg_reorder_across_fake_quant arg_allow_custom_ops arg_custom_opdefs
       arg_post_training_quantize arg_quantize_to_float16
       arg_dump_graphviz_dir arg_dump_graphviz_video arg_target_ops
       arg_conversion_summary_dir arg_select_user_tf_ops
       arg_operators_versions].
  assert (∀ s : option string,
            (if truthy_str (if truthy_str s then s else None)
             then (if truthy_str s then s else None) else None)
            = if truthy_str s then s else None) as Hblank.
  { intros s. by destruct (truthy_str s) eqn:Hs; [rewrite Hs|]. }
  rewrite !Hblank.
  destruct (arg_custom_opdefs a) as [[|? ?]|];
    destruct (arg_select_user_tf_ops a) as [[|? ?]|];
    destruct (arg_target_ops a) as [[|? ?]|];
    cbn [truthy_list items default andb]; reflexivity.
Qed.

(** X3: in the flags built, [enable_select_tf_ops] holds exactly when
    [SELECT_TF_OPS] is among [target_ops], and [force_select_tf_ops]
    exactly when [target_ops] is not empty and holds nothing else; so
    the second toggle never holds without the first. *)
Theorem build_toco_flags_select_toggles (a : TocoArgs) (toco : TocoFlags) :
  build_toco_flags a = Return toco →
  (enable_select_tf_ops toco = true
   ↔ SELECT_TF_OPS ∈ items (arg_target_ops a))
  ∧ (force_select_tf_ops toco = true
     ↔ items (arg_target_ops a) ≠ []
       ∧ Forall (λ o, o = SELECT_TF_OPS) (items (arg_target_ops a)))
  ∧ (force_select_tf_ops toco = true → enable_select_tf_ops toco = true).
Proof.
  intros Hbuild. unfold build_toco_flags in Hbuild.
  apply bind_Return in Hbuild as (it & _ & Hbuild).
  apply bind_Return in Hbuild as (iit & _ & [= <-]).
  cbn [enable_select_tf_ops force_select_tf_ops].
  assert (∀ ops : list OpsSet,
            (list_to_set ops : gset OpsSet) = {[SELECT_TF_OPS]}
            ↔ ops ≠ [] ∧ Forall (λ o, o = SELECT_TF_OPS) ops) as Hforce.
  { intros ops. split.
    - intros Hset. split.
      + intros ->. simpl in Hset. set_solver.
      + apply Forall_forall. intros o Ho.
        assert (o ∈ (list_to_set ops : gset OpsSet)) as Hin
          by by apply elem_of_list_to_set.
        rewrite Hset in Hin. set_solver.
    - intros [Hne Hall]. apply set_eq. intros o.
      rewrite elem_of_list_to_set, elem_of_singleton. split.
      + intros Ho. by apply (proj1 (Forall_forall _ _) Hall).
      + intros ->. destruct ops as [|o' rest]; [done|].
        apply Forall_cons in Hall as [-> _]. apply list_elem_of_here. }
  destruct (arg_target_ops a) as [[|o rest]|]; cbn [truthy_list items default].
  - rewrite !andb_false_l. split_and!; [|split; [done|by intros [? _]]|done].
    split; [done|]. intros Hin. by apply elem_of_nil in Hin.
  - rewrite !andb_true_l, !bool_decide_eq_true.
    rewrite elem_of_list_to_set, Hforce. split_and!; [done|done|].
    intros [_ Hall]. apply Forall_cons in Hall as [-> _].
    apply list_elem_of_here.
  - rewrite !andb_false_l. split_and!; [|split; [done|by intros [? _]]|done].
    split; [done|]. intros Hin. by apply elem_of_nil in Hin.
Qed.

End MoreFlagsFacts.

Lemma build_toco_flags_select_toggles_witness :
  ∃ toco,
    build_toco_flags (util:=Sample.util) (protobuf:=Sample.protobuf)
      (Sample.with_target_ops [SELECT_TF_OPS; SELECT_TF_OPS]) = Return toco
    ∧ force_select_tf_ops toco = true
    ∧ enable_select_tf_ops toco = true.
Proof.
  eexists. split; [reflexivity|].
  destruct (build_toco_flags_select_toggles (util:=Sample.util) (protobuf:=Sample.protobuf)
              (Sample.with_target_ops [SELECT_TF_OPS; SELECT_TF_OPS]) _ eq_refl)
    as (_ & Hforce & Himp).
  split; [apply Hforce|apply Himp, Hforce];
    (split; [simpl; discriminate|simpl; by repeat constructor]).
Defined.

(** ** More on [build_toco_convert_protos] *)

Section MoreProtosFacts.
Context {util : Util} {protobuf : Protobuf}.

(** The name the builder gives the array of a tensor. *)
Lemma build_input_array_name (toco : TocoFlags) (c : ConvertArgs)
    (idx : nat) (t : Tensor) (a : InputArray) :
  build_input_array toco c idx t = Return a →
  ia_name a = (if truthy_str (arg_saved_model_dir c)
               then tensor_name t else get_tensor_name t)
  ∧ convert_dtype_to_tflite_type (tensor_dtype t) = Return (default FLOAT (ia_data_type a))
  ∧ is_Some (ia_data_type a).
Proof.
  unfold build_input_array. intros Hrun.
  apply bind_Return in Hrun as (data_type & Hty & Hrun).
  apply bind_Return in Hrun as (stats & _ & Hrun).
  apply bind_Return in Hrun as (shape & _ & Hrun).
  destruct shape as [|dims].
  - injection Hrun as <-. simpl; eauto.
  - apply bind_Return in Hrun as (stored & _ & [= <-]). simpl; eauto.
Qed.

(** X5: on success every input array is named after its tensor and
    typed by the conversion of the tensor's dtype, and the output array
    names are those of the output tensors, in order.  A name is the
    tensor's [name] attribute when [saved_model_dir] is given (and not
    empty), and [util.get_tensor_name] of the tensor otherwise. *)
Theorem build_toco_convert_protos_names
    (input_tensors output_tensors : list Tensor) (c : ConvertArgs)
    (model : ModelFlags) (toco : TocoFlags) (debug_info : option string) :
  build_toco_convert_protos input_tensors output_tensors c
    = Return (model, toco, debug_info) →
  let name_of (t : Tensor) :=
    if truthy_str (arg_saved_model_dir c)
    then tensor_name t else get_tensor_name t in
  ia_name <$> input_arrays model = name_of <$> input_tensors
  ∧ output_arrays model = name_of <$> output_tensors
  ∧ ∀ idx t a,
      input_tensors !! idx = Some t → input_arrays model !! idx = Some a →
      ∃ data_type,
        convert_dtype_to_tflite_type (tensor_dtype t) = Return data_type
        ∧ ia_data_type a = Some data_type.
Proof.
  intros Hrun name_of. unfold build_toco_convert_protos in Hrun.
  apply bind_Return in Hrun as (toco' & _ & Hrun).
  apply bind_Return in Hrun as (arrays & Harrays & [= <- <- <-]).
  cbn [input_arrays output_arrays].
  destruct (build_input_arrays_lookup _ _ _ _ _ Harrays) as [Hlen Hlook].
  split_and!; [|done|].
  - apply list_eq. intros i. rewrite !list_lookup_fmap.
    destruct (input_tensors !! i) as [t|] eqn:Ht.
    + destruct (Hlook i t Ht) as (a & -> & Hbuild). simpl.
      by destruct (build_input_array_name _ _ _ _ _ Hbuild) as (-> & _ & _).
    + apply lookup_ge_None in Ht. rewrite <- Hlen in Ht.
      apply lookup_ge_None in Ht. by rewrite Ht.
  - intros idx t a Ht Ha.
    destruct (Hlook idx t Ht) as (a' & Ha' & Hbuild).
    assert (a' = a) as -> by congruence.
    destruct (build_input_array_name _ _ _ _ _ Hbuild) as (_ & Hty & [ty Hsome]).
    exists ty. rewrite Hsome in Hty. by rewrite Hsome.
Qed.

End MoreProtosFacts.

(** ** What a built request has gone through *)

Section IndexFacts.
Context {util : Util} {protobuf : Protobuf}.

(** One iteration that returns has found its shape, every dimension of
    it fits an [int32] field, and it has read the statistics at its
    position if the loop reads them. *)
Lemma build_input_array_inv (toco : TocoFlags) (c : ConvertArgs)
    (idx : nat) (t : Tensor) (a : InputArray) :
  build_input_array toco c idx t = Return a →
  ∃ shape,
    input_shape c idx t = Return shape
    ∧ Forall in_int32 (shape_dims shape)
    ∧ ia_dims a = shape_dims shape
    ∧ if reads_stats toco c then
        ∃ mean std,
          items (arg_quantized_input_stats c) !! idx = Some (mean, std)
          ∧ ia_mean_value a = Some (float_field mean)
          ∧ ia_std_value a = Some (float_field std)
      else ia_mean_value a = None ∧ ia_std_value a = None.
Proof.
  unfold build_input_array, reads_stats. intros Hrun.
  apply bind_Return in Hrun as (data_type & _ & Hrun).
  apply bind_Return in Hrun as (st & Hst & Hrun).
  apply bind_Return in Hrun as (shape & Hshape & Hrun).
  exists shape. split; [done|].
  assert (Forall in_int32 (shape_dims shape)
          ∧ ia_dims a = shape_dims shape
          ∧ ia_mean_value a = st.1 ∧ ia_std_value a = st.2)
    as (Hfit & Hdims & Hmean & Hstd).
  { destruct shape as [|dims]; simpl.
    - injection Hrun as <-. by split_and!.
    - apply bind_Return in Hrun as (stored & Hstored & [= <-]).
      apply int32_extend_Return in Hstored as [-> Hall]. by split_and!. }
  split_and!; [done..|]. rewrite Hmean, Hstd. clear Hrun Hmean Hstd.
  destruct (_requires_input_stats toco
            && truthy_list (arg_quantized_input_stats c)).
  - apply bind_Return in Hst as ([mean std] & Hidx & [= <-]).
    unfold py_index in Hidx.
    destruct (items (arg_quantized_input_stats c) !! idx) as [p|]; [|done].
    injection Hidx as ->. by exists mean, std.
  - by injection Hst as <-.
Qed.

(** A built request has its flags from [build_toco_flags] and one
    input array per tensor, each the result of one iteration. *)
Lemma build_toco_convert_protos_inv
    (input_tensors output_tensors : list Tensor) (c : ConvertArgs)
    (model : ModelFlags) (toco : TocoFlags) (debug_info : option string) :
  build_toco_convert_protos input_tensors output_tensors c
    = Return (model, toco, debug_info) →
  build_toco_flags (toco_args c) = Return toco
  ∧ length (input_arrays model) = length input_tensors
  ∧ ∀ idx, (∀ t, input_tensors !! idx = Some t →
              ∃ a, input_arrays model !! idx = Some a
                   ∧ build_input_array toco c idx t = Return a)
           ∧ (∀ a, input_arrays model !! idx = Some a →
                ∃ t, input_tensors !! idx = Some t
                     ∧ build_input_array toco c idx t = Return a).
Proof.
  unfold build_toco_convert_protos. intros Hrun.
  apply bind_Return in Hrun as (toco' & Hflags & Hrun).
  apply bind_Return in Hrun as (arrays & Harrays & [= <- <- <-]).
  cbn [input_arrays].
  destruct (build_input_arrays_lookup _ _ _ _ _ Harrays) as [Hlen Hlook].
  split_and!; [done..|]. intros idx. split.
  - intros t Ht. destruct (Hlook idx t Ht) as (a & Ha & Hbuild). by exists a.
  - intros a Ha.
    destruct (lookup_lt_is_Some_2 input_tensors idx) as [t Ht].
    { rewrite <- Hlen. by apply lookup_lt_Some in Ha. }
    destruct (Hlook idx t Ht) as (a' & Ha' & Hbuild). exists t.
    simpl in Hbuild. split; [done|congruence].
Qed.

(** X6: a dimension that does not fit the [int32] field of the request
    is never truncated or wrapped: if the shape taken for some input
    tensor (its own, or its entry of [input_shapes]) holds a dimension
    outside the 32-bit range, no request is built. *)
Theorem build_toco_convert_protos_rejects_wide_dim
    (input_tensors output_tensors : list Tensor) (c : ConvertArgs)
    (idx : nat) (input_tensor : Tensor) (shape : TensorShape) (d : Z) :
  input_tensors !! idx = Some input_tensor →
  input_shape c idx input_tensor = Return shape →
  d ∈ shape_dims shape →
  ¬ in_int32 d →
  ∀ request,
    build_toco_convert_protos input_tensors output_tensors c ≠ Return request.
Proof.
  intros Ht Hshape Hd Hwide [[model toco] debug_info] Hrun.
  destruct (build_toco_convert_protos_inv _ _ _ _ _ _ Hrun)
    as (_ & _ & Hlook).
  destruct (proj1 (Hlook idx) input_tensor Ht) as (a & _ & Hbuild).
  destruct (build_input_array_inv _ _ _ _ _ Hbuild)
    as (shape' & Hshape' & Hfit & _).
  assert (shape' = shape) as -> by congruence.
  by eapply Hwide, Forall_forall.
Qed.

(** X7: a list that the loop indexes and that is shorter than
    [input_tensors] never yields a request: [input_shapes] when it is
    given, and [quantized_input_stats] when the flags built from the
    same options make the loop read it. *)
Theorem build_toco_convert_protos_short_list
    (input_tensors output_tensors : list Tensor) (c : ConvertArgs) :
  (∃ input_shapes, arg_input_shapes c = Some input_shapes
                   ∧ (length input_shapes < length input_tensors)%nat)
  ∨ (∃ toco, build_toco_flags (toco_args c) = Return toco
             ∧ reads_stats toco c = true
             ∧ (length (items (arg_quantized_input_stats c))
                < length input_tensors)%nat) →
  ∀ request,
    build_toco_convert_protos input_tensors output_tensors c ≠ Return request.
Proof.
  intros Hshort [[model toco] debug_info] Hrun.
  destruct (build_toco_convert_protos_inv _ _ _ _ _ _ Hrun)
    as (Hflags & _ & Hlook).
  destruct Hshort as [(shapes & Hshapes & Hlt)|(toco0 & Hflags0 & Hreads & Hlt)].
  - destruct (lookup_lt_is_Some_2 input_tensors (length shapes) Hlt)
      as [t Ht].
    destruct (proj1 (Hlook _) t Ht) as (a & _ & Hbuild).
    destruct (build_input_array_inv _ _ _ _ _ Hbuild) as (shape & Hshape & _).
    unfold input_shape, py_index in Hshape. rewrite Hshapes in Hshape.
    by rewrite lookup_ge_None_2 in Hshape.
  - assert (toco0 = toco) as -> by congruence.
    destruct (lookup_lt_is_Some_2 input_tensors _ Hlt) as [t Ht].
    destruct (proj1 (Hlook _) t Ht) as (a & _ & Hbuild).
    destruct (build_input_array_inv _ _ _ _ _ Hbuild)
      as (shape & _ & _ & _ & Hstats).
    rewrite Hreads in Hstats. destruct Hstats as (mean & std & Hidx & _).
    apply lookup_lt_Some in Hidx. lia.
Qed.

(** X8: the statistics reach a built request only when the flags
    require them.  If they do not (float inference, or post-training
    quantisation), or none are given, every input array is left without
    mean and standard deviation, whatever [quantized_input_stats]
    holds; if they do and some are given, each input array carries what
    its two float fields make of the pair at its position. *)
Theorem build_toco_convert_protos_stats
    (input_tensors output_tensors : list Tensor) (c : ConvertArgs)
    (model : ModelFlags) (toco : TocoFlags) (debug_info : option string) :
  build_toco_convert_protos input_tensors output_tensors c
    = Return (model, toco, debug_info) →
  if reads_stats toco c then
    ∀ idx a, input_arrays model !! idx = Some a →
      ∃ mean std,
        items (arg_quantized_input_stats c) !! idx = Some (mean, std)
        ∧ ia_mean_value a = Some (float_field mean)
        ∧ ia_std_value a = Some (float_field std)
  else
    ∀ a, a ∈ input_arrays model →
      ia_mean_value a = None ∧ ia_std_value a = None.
Proof.
  intros Hrun.
  destruct (build_toco_convert_protos_inv _ _ _ _ _ _ Hrun)
    as (_ & _ & Hlook).
  assert (∀ idx a, input_arrays model !! idx = Some a →
            if reads_stats toco c then
              ∃ mean std,
                items (arg_quantized_input_stats c) !! idx = Some (mean, std)
                ∧ ia_mean_value a = Some (float_field mean)
                ∧ ia_std_value a = Some (float_field std)
            else ia_mean_value a = None ∧ ia_std_value a = None) as Hstats.
  { intros idx a Ha. destruct (proj2 (Hlook idx) a Ha) as (t & _ & Hbuild).
    by destruct (build_input_array_inv _ _ _ _ _ Hbuild) as (? & _ & _ & _ & ?). }
  destruct (reads_stats toco c).
  - exact Hstats.
  - intros a Ha. apply list_elem_of_lookup in Ha as [idx Ha]. eauto.
Qed.

End IndexFacts.

(** ** The request of [toco_convert_graph_def] *)

Section GraphDefFacts.
Context {util : Util} {protobuf : Protobuf}.

Lemma graph_def_input_arrays_lookup (toco : TocoFlags) (kwargs : ConvertArgs)
    (entries : list (string * list Z)) :
  ∀ (idx : nat) (arrays : list InputArray),
    graph_def_input_arrays toco kwargs idx entries = Return arrays →
    length arrays = length entries
    ∧ ∀ (i : nat) (entry : string * list Z), entries !! i = Some entry →
        ∃ a, arrays !! i = Some a
             ∧ graph_def_input_array toco kwargs (idx + i) entry = Return a.
Proof.
  induction entries as [|e0 rest IH]; intros idx arrays Hrun; simpl in Hrun.
  - injection Hrun as <-. split; [done|]. intros i entry Hi. by destruct i.
  - apply bind_Return in Hrun as (a0 & Ha0 & Hrun).
    apply bind_Return in Hrun as (arrays' & Hrest & [= <-]).
    destruct (IH _ _ Hrest) as [Hlen Hlook]. split; [simpl; by rewrite Hlen|].
    intros [|i] entry Hi; simpl in Hi.
    + injection Hi as <-. exists a0. by rewrite Nat.add_0_r.
    + destruct (Hlook i entry Hi) as (a & Ha & Hbuild).
      exists a. split; [done|]. by rewrite <- Nat.add_succ_comm.
Qed.

Lemma graph_def_input_array_fields (toco : TocoFlags) (kwargs : ConvertArgs)
    (idx : nat) (entry : string * list Z) (a : InputArray) :
  graph_def_input_array toco kwargs idx entry = Return a →
  ia_name a = entry.1 ∧ ia_dims a = entry.2
  ∧ ia_data_type a = None ∧ ia_unknown_rank a = false.
Proof.
  unfold graph_def_input_array. destruct entry as [name shape]. intros Hrun.
  apply bind_Return in Hrun as (stats & _ & Hrun).
  apply bind_Return in Hrun as (stored & Hstored & [= <-]).
  by apply int32_extend_Return in Hstored as [-> _].
Qed.

(** The protos of an empty tensor-based request. *)
Lemma build_toco_convert_protos_nil (kwargs : ConvertArgs) (model : ModelFlags)
    (toco : TocoFlags) (debug_info : option string) :
  build_toco_convert_protos [] [] kwargs = Return (model, toco, debug_info) →
  build_toco_flags (toco_args kwargs) = Return toco
  ∧ input_arrays model = [] ∧ output_arrays model = [].
Proof.
  unfold build_toco_convert_protos. intros Hrun.
  apply bind_Return in Hrun as (toco' & Hflags & Hrun).
  simpl in Hrun. by injection Hrun as <- <- <-.
Qed.


(** X9: the request built for name/shape pairs has one input array per
    pair, in order, carrying the pair's name and dimensions and neither
    a data type nor the unknown-rank mark; its output arrays are the
    given names and its flags are those of [build_toco_flags]. *)
Theorem toco_convert_graph_def_protos_arrays
    (input_arrays_with_shape : list (string * list Z))
    (output_arrays_ : list string) (kwargs : ConvertArgs)
    (model : ModelFlags) (toco : TocoFlags) :
  toco_convert_graph_def_protos input_arrays_with_shape output_arrays_ kwargs
    = Return (model, toco) →
  build_toco_flags (toco_args kwargs) = Return toco
  ∧ ia_name <$> input_arrays model = fst <$> input_arrays_with_shape
  ∧ ia_dims <$> input_arrays model = snd <$> input_arrays_with_shape
  ∧ Forall (λ a, ia_data_type a = None ∧ ia_unknown_rank a = false)
      (input_arrays model)
  ∧ output_arrays model = output_arrays_.
Proof.
  unfold toco_convert_graph_def_protos. intros Hrun.
  apply bind_Return in Hrun as ([[model0 toco0] dbg] & Hprotos & Hrun).
  apply bind_Return in Hrun as (arrays & Harrays & [= <- <-]).
  destruct (build_toco_convert_protos_nil _ _ _ _ Hprotos) as (Hflags & Hin & Hout).
  cbn [input_arrays output_arrays]. rewrite Hin, Hout. simpl.
  destruct (graph_def_input_arrays_lookup _ _ _ _ _ Harrays) as [Hlen Hlook].
  assert (∀ i a, arrays !! i = Some a →
            ∃ entry, input_arrays_with_shape !! i = Some entry
                     ∧ graph_def_input_array toco0 kwargs i entry = Return a)
    as Hbuilt.
  { intros i a Ha.
    destruct (lookup_lt_is_Some_2 input_arrays_with_shape i) as [entry He].
    { rewrite <- Hlen. by apply lookup_lt_Some in Ha. }
    destruct (Hlook i entry He) as (a' & Ha' & Hbuild). exists entry.
    simpl in Hbuild. split; [done|congruence]. }
  split_and!; [done| | | |done].
  - apply list_eq. intros i. rewrite !list_lookup_fmap.
    destruct (arrays !! i) as [a|] eqn:Ha.
    + destruct (Hbuilt i a Ha) as (entry & -> & Hbuild). simpl.
      by destruct (graph_def_input_array_fields _ _ _ _ _ Hbuild) as (-> & _).
    + apply lookup_ge_None in Ha. rewrite Hlen in Ha.
      apply lookup_ge_None in Ha. by rewrite Ha.
  - apply list_eq. intros i. rewrite !list_lookup_fmap.
    destruct (arrays !! i) as [a|] eqn:Ha.
    + destruct (Hbuilt i a Ha) as (entry & -> & Hbuild). simpl.
      by destruct (graph_def_input_array_fields _ _ _ _ _ Hbuild)
        as (_ & -> & _).
    + apply lookup_ge_None in Ha. rewrite Hlen in Ha.
      apply lookup_ge_None in Ha. by rewrite Ha.
  - apply Forall_lookup. intros i a Ha.
    destruct (Hbuilt i a Ha) as (entry & _ & Hbuild).
    by destruct (graph_def_input_array_fields _ _ _ _ _ Hbuild)
      as (_ & _ & ? & ?).
Qed.


(** One iteration of the name/shape loop that returns: every
    dimension fits, and the statistics are read whenever the flags
    require them. *)
Lemma graph_def_input_array_stats (toco : TocoFlags) (kwargs : ConvertArgs)
    (idx : nat) (entry : string * list Z) (a : InputArray) :
  graph_def_input_array toco kwargs idx entry = Return a →
  Forall in_int32 entry.2
  ∧ if _requires_input_stats toco then
      truthy_list (arg_quantized_input_stats kwargs) = true
      ∧ ∃ mean std,
          items (arg_quantized_input_stats kwargs) !! idx = Some (mean, std)
          ∧ ia_mean_value a = Some (float_field mean)
          ∧ ia_std_value a = Some (float_field std)
    else ia_mean_value a = None ∧ ia_std_value a = None.
Proof.
  unfold graph_def_input_array. destruct entry as [name shape]. intros Hrun.
  apply bind_Return in Hrun as (st & Hst & Hrun).
  apply bind_Return in Hrun as (stored & Hstored & [= <-]).
  apply int32_extend_Return in Hstored as [-> Hfit].
  split; [done|]. cbn [ia_mean_value ia_std_value].
  destruct (_requires_input_stats toco).
  - destruct (truthy_list (arg_quantized_input_stats kwargs)); [|done].
    split; [done|]. simpl in Hst.
    apply bind_Return in Hst as ([mean std] & Hidx & [= <-]).
    unfold py_index in Hidx.
    destruct (items (arg_quantized_input_stats kwargs) !! idx) as [p|];
      [|done].
    injection Hidx as ->. by exists mean, std.
  - by injection Hst as <-.
Qed.

(** X11: in a request built from name/shape pairs every dimension
    given fits the [int32] field, and the statistics are as the flags
    ask: when they require statistics, some were given and each input
    array carries what its two float fields make of the pair at its
    position; when they do not, no input array has mean or standard
    deviation, whatever was supplied. *)
Theorem toco_convert_graph_def_protos_stats
    (input_arrays_with_shape : list (string * list Z))
    (output_arrays_ : list string) (kwargs : ConvertArgs)
    (model : ModelFlags) (toco : TocoFlags) :
  toco_convert_graph_def_protos input_arrays_with_shape output_arrays_ kwargs
    = Return (model, toco) →
  Forall (λ entry, Forall in_int32 entry.2) input_arrays_with_shape
  ∧ ∀ idx a, input_arrays model !! idx = Some a →
      if _requires_input_stats toco then
        truthy_list (arg_quantized_input_stats kwargs) = true
        ∧ ∃ mean std,
            items (arg_quantized_input_stats kwargs) !! idx
              = Some (mean, std)
            ∧ ia_mean_value a = Some (float_field mean)
            ∧ ia_std_value a = Some (float_field std)
      else ia_mean_value a = None ∧ ia_std_value a = None.
Proof.
  unfold toco_convert_graph_def_protos. intros Hrun.
  apply bind_Return in Hrun as ([[model0 toco0] dbg] & Hprotos & Hrun).
  apply bind_Return in Hrun as (arrays & Harrays & [= <- <-]).
  destruct (build_toco_convert_protos_nil _ _ _ _ Hprotos)
    as (_ & Hin & _).
  cbn [input_arrays]. rewrite Hin. simpl.
  destruct (graph_def_input_arrays_lookup _ _ _ _ _ Harrays) as [Hlen Hlook].
  split.
  - apply Forall_lookup. intros i entry He.
    destruct (Hlook i entry He) as (a & _ & Hbuild).
    by destruct (graph_def_input_array_stats _ _ _ _ _ Hbuild) as [? _].
  - intros idx a Ha.
    destruct (lookup_lt_is_Some_2 input_arrays_with_shape idx) as [entry He].
    { rewrite <- Hlen. by apply lookup_lt_Some in Ha. }
    destruct (Hlook idx entry He) as (a' & Ha' & Hbuild).
    assert (a' = a) as -> by congruence. simpl in Hbuild.
    by destruct (graph_def_input_array_stats _ _ _ _ _ Hbuild) as [_ ?].
Qed.

End GraphDefFacts.

(** ** Examples for the request builders *)

Lemma build_toco_convert_protos_names_witness :
  ∃ model toco,
    build_toco_convert_protos (util:=Sample.util) (protobuf:=Sample.protobuf) [Sample.image] [Sample.image]
      default_convert_args = Return (model, toco, None)
    ∧ ia_name <$> input_arrays model = ["input"]
    ∧ output_arrays model = ["input"].
Proof.
  eexists _, _. split; [reflexivity|].
  pose proof (build_toco_convert_protos_names (util:=Sample.util) (protobuf:=Sample.protobuf)
                [Sample.image] [Sample.image] default_convert_args _ _ None
                eq_refl) as Hnames.
  cbv zeta in Hnames. destruct Hnames as (Hin & Hout & _).
  split; [exact Hin|exact Hout].
Defined.

Lemma build_toco_convert_protos_rejects_wide_dim_witness :
  build_toco_convert_protos (util:=Sample.util) (protobuf:=Sample.protobuf)
    [Sample.image] []
    (Sample.with_input_shapes [KnownRank [DimInt 2147483648]])
  = Raise (ValueError "Value out of range: 2147483648")
  ∧ ∀ request,
      build_toco_convert_protos (util:=Sample.util)
        (protobuf:=Sample.protobuf) [Sample.image] []
        (Sample.with_input_shapes [KnownRank [DimInt 2147483648]])
      ≠ Return request.
Proof.
  split; [vm_compute; reflexivity|].
  apply (build_toco_convert_protos_rejects_wide_dim (util:=Sample.util)
           (protobuf:=Sample.protobuf) [Sample.image] []
           (Sample.with_input_shapes [KnownRank [DimInt 2147483648]])
           0%nat Sample.image (KnownRank [DimInt 2147483648]) 2147483648).
  - reflexivity.
  - reflexivity.
  - simpl. by left.
  - unfold in_int32. lia.
Defined.

Lemma build_toco_convert_protos_short_list_witness :
  build_toco_convert_protos (util:=Sample.util) (protobuf:=Sample.protobuf)
    [Sample.image] [] (Sample.with_input_shapes [])
  = Raise (IndexError "list index out of range")
  ∧ ∀ request,
      build_toco_convert_protos (util:=Sample.util)
        (protobuf:=Sample.protobuf) [Sample.image] []
        (Sample.with_input_shapes [])
      ≠ Return request.
Proof.
  split; [vm_compute; reflexivity|].
  apply (build_toco_convert_protos_short_list (util:=Sample.util)
           (protobuf:=Sample.protobuf) [Sample.image] []
           (Sample.with_input_shapes [])).
  left. exists []. split; [reflexivity|simpl; lia].
Defined.

Lemma build_toco_convert_protos_stats_witness :
  ∃ model toco a,
    build_toco_convert_protos (util:=Sample.util) (protobuf:=Sample.protobuf)
      [Sample.image] [] MoreSamples.quantized_args
      = Return (model, toco, None)
    ∧ input_arrays model !! 0%nat = Some a
    ∧ ia_mean_value a = Some (S754_finite false 13421773 (-27))
    ∧ ia_std_value a = Some (S754_finite false 13421773 (-26)).
Proof.
  eexists _, _, _. split; [reflexivity|]. split; [reflexivity|].
  pose proof (build_toco_convert_protos_stats (util:=Sample.util)
                (protobuf:=Sample.protobuf)
                [Sample.image] [] MoreSamples.quantized_args _ _ None eq_refl)
    as Hstats.
  change (reads_stats _ MoreSamples.quantized_args) with true in Hstats.
  destruct (Hstats 0%nat _ eq_refl) as (mean & std & Hpair & Hmean & Hstd).
  injection Hpair as <- <-. split; [exact Hmean|exact Hstd].
Defined.

Lemma toco_convert_graph_def_protos_arrays_witness :
  ∃ model toco,
    toco_convert_graph_def_protos (util:=Sample.util) (protobuf:=Sample.protobuf)
      [("input", [1; 224; 224; 3])] ["output"] default_convert_args
      = Return (model, toco)
    ∧ ia_name <$> input_arrays model = ["input"]
    ∧ ia_dims <$> input_arrays model = [[1; 224; 224; 3]]
    ∧ output_arrays model = ["output"].
Proof.
  eexists _, _. split; [reflexivity|].
  destruct (toco_convert_graph_def_protos_arrays (util:=Sample.util) (protobuf:=Sample.protobuf)
              [("input", [1; 224; 224; 3])] ["output"] default_convert_args
              _ _ eq_refl) as (_ & Hnames & Hdims & _ & Hout).
  split_and!; [exact Hnames|exact Hdims|exact Hout].
Defined.


Lemma toco_convert_graph_def_protos_stats_witness :
  ∃ model toco a,
    toco_convert_graph_def_protos (util:=Sample.util)
      (protobuf:=Sample.protobuf)
      [("input", [1; 224; 224; 3])] ["output"] MoreSamples.quantized_args
      = Return (model, toco)
    ∧ input_arrays model !! 0%nat = Some a
    ∧ ia_mean_value a = Some (S754_finite false 13421773 (-27))
    ∧ ia_std_value a = Some (S754_finite false 13421773 (-26)).
Proof.
  eexists _, _, _. split; [reflexivity|]. split; [reflexivity|].
  destruct (toco_convert_graph_def_protos_stats (util:=Sample.util)
              (protobuf:=Sample.protobuf)
              [("input", [1; 224; 224; 3])] ["output"]
              MoreSamples.quantized_args _ _ eq_refl) as [_ Hstats].
  specialize (Hstats 0%nat _ eq_refl).
  change (_requires_input_stats _) with true in Hstats.
  destruct Hstats as (_ & mean & std & Hpair & Hmean & Hstd).
  injection Hpair as <- <-. split; [exact Hmean|exact Hstd].
Defined.

(** ** The configured binary and the callers of the dispatcher *)

Section CallerFacts.
Context {util : Util} {protobuf : Protobuf} {runtime : Runtime}.

(** X12: with [EXPERIMENTAL_USE_TOCO_API_DIRECTLY] set, the binary
    configured at import is the empty string, so every dispatch, with or
    without [enable_mlir_converter], is one in-process call. *)
Theorem api_direct_dispatch_in_process (datafile : string) (w_import : World)
    (model_flags_str toco_flags_str : string)
    (input_data_str : option string) (debug_info_str : option pystr)
    (enable_mlir_converter : bool) (w : World) :
  run (toco_convert_protos
         (import_toco_from_proto_bin true datafile w_import)
         model_flags_str toco_flags_str input_data_str debug_info_str
         enable_mlir_converter) w
  = (match wrapped_toco_convert model_flags_str toco_flags_str
             input_data_str debug_info_str enable_mlir_converter with
     | Return model_str => Return model_str
     | Raise e => Raise (ConverterError (str_exn e))
     end,
     log (InProcessCall model_flags_str toco_flags_str input_data_str
            debug_info_str enable_mlir_converter) w).
Proof.
  apply toco_convert_protos_in_process.
  unfold import_toco_from_proto_bin. by rewrite orb_true_r.
Qed.

(** X13: without that constant, and with a resource path that is not
    empty, the configured binary is the resource path when a file is
    there at import and the bare name "toco_from_protos" otherwise;
    it is never empty, so a dispatch without [enable_mlir_converter]
    never calls the in-process converter. *)
Theorem configured_binary_dispatch_out_of_process (datafile : string)
    (w_import : World) (model_flags_str toco_flags_str : string)
    (input_data_str : option string) (debug_info_str : option pystr)
    (w : World) :
  datafile ≠ "" →
  let configured := import_toco_from_proto_bin false datafile w_import in
  configured = (if isfile datafile w_import
                then datafile else "toco_from_protos")
  ∧ configured ≠ ""
  ∧ ∃ spawns,
      trace (run (toco_convert_protos configured model_flags_str
                    toco_flags_str input_data_str debug_info_str false) w).2
      = trace w ++ spawns
      ∧ Forall is_spawn spawns.
Proof.
  intros Hdata configured.
  assert (configured = if isfile datafile w_import
                       then datafile else "toco_from_protos") as Hbin.
  { unfold configured, import_toco_from_proto_bin.
    rewrite bool_decide_eq_true_2 by done.
    by destruct (isfile datafile w_import). }
  assert (configured ≠ "") as Hne.
  { rewrite Hbin. by destruct (isfile datafile w_import). }
  split_and!; [done|done|].
  apply (toco_convert_protos_only_spawns configured).
  by rewrite orb_false_l, bool_decide_eq_false_2.
Qed.

Variable bin : string.

(** X14: [convert_saved_model] hands the keywords it has no parameter
    for to [build_toco_flags].  A keyword that names neither one of its
    own four parameters nor a parameter of [build_toco_flags] therefore
    changes nothing; in particular [enable_mlir_converter=False] among
    the keywords does not turn the in-process dispatch off. *)
Theorem convert_saved_model_ignores_unrecognized
    (saved_model_dir_ : option string) (saved_model_version_ : Z)
    (saved_model_tags_ saved_model_exported_names_ : option (list string))
    (kwargs : gmap string pyval) (k : string) (v : pyval) :
  k ∉ convert_saved_model_param_names →
  k ∉ toco_flags_param_names →
  convert_saved_model bin saved_model_dir_ saved_model_version_
    saved_model_tags_ saved_model_exported_names_ (<[k:=v]> kwargs)
  = convert_saved_model bin saved_model_dir_ saved_model_version_
      saved_model_tags_ saved_model_exported_names_ kwargs.
Proof.
  intros _ Hk. unfold convert_saved_model, build_toco_flags_kw.
  by rewrite bind_toco_args_insert_other.
Qed.


End CallerFacts.

Lemma configured_binary_dispatch_out_of_process_witness :
  import_toco_from_proto_bin false "/opt/tensorflow/toco_from_protos"
    Sample.world = "toco_from_protos"
  ∧ ∃ spawns,
      trace (run (toco_convert_protos (runtime:=Sample.runtime)
                    "toco_from_protos" "model" "flags" (Some "graph") None
                    false) Sample.world).2
      = trace Sample.world ++ spawns
      ∧ Forall is_spawn spawns.
Proof.
  destruct (configured_binary_dispatch_out_of_process
              (runtime:=Sample.runtime) "/opt/tensorflow/toco_from_protos"
              Sample.world "model" "flags" (Some "graph") None Sample.world
              ltac:(discriminate)) as (Hbin & _ & Hspawns).
  split; [exact Hbin|exact Hspawns].
Defined.

Lemma convert_saved_model_ignores_unrecognized_witness :
  convert_saved_model (util:=Sample.util) (protobuf:=Sample.protobuf) (runtime:=Sample.runtime)
    "toco_from_protos" (Some "/models/m") 1 None None
    (<["enable_mlir_converter" := PyBool false]> ∅)
  = convert_saved_model (util:=Sample.util) (protobuf:=Sample.protobuf) (runtime:=Sample.runtime)
      "toco_from_protos" (Some "/models/m") 1 None None ∅.
Proof.
  apply (convert_saved_model_ignores_unrecognized (util:=Sample.util)
           (protobuf:=Sample.protobuf) (runtime:=Sample.runtime)).
  - apply (bool_decide_unpack
             ("enable_mlir_converter" ∉ convert_saved_model_param_names)).
    vm_compute. exact I.
  - apply (bool_decide_unpack
             ("enable_mlir_converter" ∉ toco_flags_param_names)).
    vm_compute. exact I.
Defined.

(** ** The files of an out-of-process dispatch *)

Lemma fresh_name_Some (candidates rest : list string)
    (fs : gmap string string) (name : string) :
  fresh_name candidates fs = Some (name, rest) → fs !! name = None.
Proof.
  induction candidates as [|c cs IH]; simpl; [done|].
  case_bool_decide as Hc; [|done]. by intros [= <- _].
Qed.

Lemma NamedTemporaryFile_Return (w w' : World) (name : string) :
  run NamedTemporaryFile w = (Return name, w') →
  files w !! name = None
  ∧ files w' = <[name := ""]> (files w)
  ∧ trace w' = trace w ∧ search_path w' = search_path w.
Proof.
  unfold NamedTemporaryFile. cbn [run].
  destruct (fresh_name (tmp_names w) (files w)) as [[n rest]|] eqn:Hfresh;
    [|done].
  intros [= <- <-]. split; [by eapply fresh_name_Some|done].
Qed.

Lemma write_Return (name data : string) (w w' : World) (u : unit) :
  run (write name data) w = (Return u, w') →
  files w' = <[name := default "" (files w !! name) +:+ data]> (files w)
  ∧ trace w' = trace w ∧ search_path w' = search_path w.
Proof. unfold write. cbn [run]. intros Hrun. by simplify_eq. Qed.

Lemma run_in_world_Return' {A} (c : IO World A) (w w' : World) (l l' : Locals)
    (a : A) :
  run (in_world c) (w, l) = (Return a, (w', l')) →
  run c w = (Return a, w') ∧ l' = l.
Proof. apply run_in_world_Return. Qed.

(** What the last write of the [with] block puts into the debug file. *)
Lemma debug_write_payload (d : option pystr) (fp_debug : string) (f : Frame) :
  run match (if truthy_pystr d then default (PyText "") d else PyText "") with
      | PyText t => in_world (write fp_debug (encode_utf8 t))
      | PyBytes b => in_world (write fp_debug b)
      end f
  = run (in_world (write fp_debug (debug_payload d))) f.
Proof.
  destruct d as [[b|t]|]; cbn [truthy_pystr debug_payload default];
    [| |reflexivity].
  - destruct (decide (b = "")) as [->|Hne].
    + by rewrite bool_decide_eq_false_2 by (by intros ?).
    + by rewrite bool_decide_eq_true_2.
  - destruct (decide (t = "")) as [->|Hne].
    + by rewrite bool_decide_eq_false_2 by (by intros ?).
    + by rewrite bool_decide_eq_true_2.
Qed.

Lemma unlink_all_lookup (names : list (option string))
    (fs : gmap string string) (path : string) :
  unlink_all names fs !! path
  = if bool_decide (Some path ∈ names) then None else fs !! path.
Proof.
  unfold unlink_all. revert fs.
  induction names as [|[p|] rest IH]; intros fs; cbn [foldl].
  - by rewrite bool_decide_eq_false_2 by apply not_elem_of_nil.
  - rewrite IH. destruct (decide (p = path)) as [->|Hne].
    + rewrite lookup_delete_eq.
      rewrite (bool_decide_eq_true_2 (Some path ∈ Some path :: rest))
        by apply list_elem_of_here.
      by destruct (bool_decide (Some path ∈ rest)).
    + rewrite lookup_delete_ne by done.
      destruct (bool_decide (Some path ∈ rest)) eqn:Hin.
      * apply bool_decide_eq_true in Hin.
        by rewrite bool_decide_eq_true_2 by by apply list_elem_of_further.
      * apply bool_decide_eq_false in Hin.
        rewrite bool_decide_eq_false_2; [done|].
        intros [[=]|?]%elem_of_cons; [congruence|done].
  - rewrite IH.
    destruct (bool_decide (Some path ∈ rest)) eqn:Hin.
    + apply bool_decide_eq_true in Hin.
      by rewrite bool_decide_eq_true_2 by by apply list_elem_of_further.
    + apply bool_decide_eq_false in Hin.
      rewrite bool_decide_eq_false_2; [done|].
      intros [[=]|?]%elem_of_cons. done.
Qed.

Lemma set_files_same (w : World) : set_files (files w) w = w.
Proof. by destruct w. Qed.

Lemma set_files_set_files (fs1 fs2 : gmap string string) (w : World) :
  set_files fs2 (set_files fs1 w) = set_files fs2 w.
Proof. reflexivity. Qed.

(** One turn of the loop in the [finally] block. *)
Lemma try_unlink_run (filename : option string) (w : World) (l : Locals) :
  run (try_except (in_world (unlink filename))
         (λ e, match e with OSError _ | TypeError _ => true | _ => false end)
         (λ _, mret ())) (w, l)
  = (Return (), (set_files (unlink_all [filename] (files w)) w, l)).
Proof.
  unfold try_except. cbn [run]. rewrite run_in_world.
  unfold unlink, unlink_all. cbn [run foldl].
  destruct filename as [path|]; cbn [fst snd].
  - unfold isfile. case_bool_decide as Hfile; cbn [fst snd]; [done|].
    cbn [mret IO_ret run].
    assert (files w !! path = None) as Hnone.
    { destruct (files w !! path) eqn:Hp; [|done]. destruct Hfile. eauto. }
    by rewrite (delete_id _ _ Hnone), set_files_same.
  - cbn [mret IO_ret run]. by rewrite set_files_same.
Qed.

(** The [finally] block as a whole: it returns, and the files left are
    those it found minus the four names it goes through. *)
Lemma cleanup_files_run (w : World) (l : Locals) :
  run cleanup_files (w, l)
  = (Return (), (set_files (unlink_all (cleanup_names l) (files w)) w, l)).
Proof.
  unfold cleanup_files. rewrite run_bind. cbn [locals run for_each].
  rewrite run_bind, try_unlink_run.
  rewrite run_bind, try_unlink_run.
  rewrite run_bind, try_unlink_run.
  rewrite run_bind, try_unlink_run.
  cbn [mret IO_ret run files set_files]. reflexivity.
Qed.

Lemma lookup_insert_None_inv (fs : gmap string string) (a b v : string) :
  <[a := v]> fs !! b = None → b ≠ a ∧ fs !! b = None.
Proof.
  intros Hnone. destruct (decide (a = b)) as [->|Hne].
  - by rewrite lookup_insert_eq in Hnone.
  - by rewrite lookup_insert_ne in Hnone.
Qed.

Section StagingFacts.
Context {runtime : Runtime}.

(** The host once the input files are built and the output file is
    reserved: five names that carried no file before, all different,
    now hold the two flag strings, the input data, the debug payload and
    nothing; every other path is as it was, and so is the trace. *)
Lemma staged_files (m t : string) (i : option string) (d : option pystr)
    (w w1 : World) (l : Locals) :
  run (build_input_files m t i d;; reserve_output_file) (w, no_locals)
    = (Return (), (w1, l)) →
  ∃ toco model input output debug data,
    i = Some data
    ∧ l = {| toco_filename := Some toco; model_filename := Some model;
             input_filename := Some input; output_filename := Some output;
             debug_filename := Some debug |}
    ∧ NoDup [toco; model; input; debug; output]
    ∧ Forall (λ name, files w !! name = None)
        [toco; model; input; debug; output]
    ∧ files w1
      = <[output := ""]>
          (<[debug := debug_payload d]>
             (<[input := data]>
                (<[toco := t]> (<[model := m]> (files w)))))
    ∧ trace w1 = trace w
    ∧ search_path w1 = search_path w.
Proof.
  intros Hrun.
  apply run_bind_Return in Hrun as (u & [wa la] & Hbuild & Hreserve).
  unfold build_input_files in Hbuild.
  apply run_bind_Return in Hbuild as (n1 & [wA lA] & H1 & Hbuild).
  apply run_in_world_Return in H1 as [H1 ->].
  apply NamedTemporaryFile_Return in H1 as (Hf1 & HfsA & HtA & HsA).
  apply run_bind_Return in Hbuild as (n2 & [wB lB] & H2 & Hbuild).
  apply run_in_world_Return in H2 as [H2 ->].
  apply NamedTemporaryFile_Return in H2 as (Hf2 & HfsB & HtB & HsB).
  apply run_bind_Return in Hbuild as (n3 & [wC lC] & H3 & Hbuild).
  apply run_in_world_Return in H3 as [H3 ->].
  apply NamedTemporaryFile_Return in H3 as (Hf3 & HfsC & HtC & HsC).
  apply run_bind_Return in Hbuild as (n4 & [wD lD] & H4 & Hbuild).
  apply run_in_world_Return in H4 as [H4 ->].
  apply NamedTemporaryFile_Return in H4 as (Hf4 & HfsD & HtD & HsD).
  do 4 (apply run_bind_Return in Hbuild as (? & [? ?] & Ha & Hbuild);
        apply run_assign_Return in Ha as [-> ->]).
  apply run_bind_Return in Hbuild as (? & [wE lE] & Hw & Hbuild).
  apply run_in_world_Return in Hw as [Hw ->].
  apply write_Return in Hw as (HfsE & HtE & HsE).
  apply run_bind_Return in Hbuild as (? & [wF lF] & Hw & Hbuild).
  apply run_in_world_Return in Hw as [Hw ->].
  apply write_Return in Hw as (HfsF & HtF & HsF).
  apply run_bind_Return in Hbuild as (data & [wF' lF'] & Hl & Hbuild).
  apply run_lift_result_Return in Hl as [Hdata [= -> ->]].
  apply run_bind_Return in Hbuild as (? & [wG lG] & Hw & Hbuild).
  apply run_in_world_Return in Hw as [Hw ->].
  apply write_Return in Hw as (HfsG & HtG & HsG).
  rewrite debug_write_payload in Hbuild.
  apply run_in_world_Return in Hbuild as [Hw ->].
  apply write_Return in Hw as (HfsH & HtH & HsH).
  unfold reserve_output_file in Hreserve.
  apply run_bind_Return in Hreserve as (n5 & [wI lI] & H5 & Hreserve).
  apply run_in_world_Return in H5 as [H5 ->].
  apply NamedTemporaryFile_Return in H5 as (Hf5 & HfsI & HtI & HsI).
  apply run_assign_Return in Hreserve as [-> ->].
  assert (i = Some data) as Hi.
  { destruct i as [s|]; simpl in Hdata; by simplify_eq. }
  (* the names are fresh and pairwise different *)
  rewrite HfsA in Hf2. apply lookup_insert_None_inv in Hf2 as [Hn21 Hf2].
  rewrite HfsB, HfsA in Hf3.
  apply lookup_insert_None_inv in Hf3 as [Hn32 Hf3].
  apply lookup_insert_None_inv in Hf3 as [Hn31 Hf3].
  rewrite HfsC, HfsB, HfsA in Hf4.
  apply lookup_insert_None_inv in Hf4 as [Hn43 Hf4].
  apply lookup_insert_None_inv in Hf4 as [Hn42 Hf4].
  apply lookup_insert_None_inv in Hf4 as [Hn41 Hf4].
  rewrite HfsH, HfsG, HfsF, HfsE, HfsD, HfsC, HfsB, HfsA in Hf5.
  apply lookup_insert_None_inv in Hf5 as [Hn54 Hf5].
  apply lookup_insert_None_inv in Hf5 as [Hn53 Hf5].
  apply lookup_insert_None_inv in Hf5 as [_ Hf5].
  apply lookup_insert_None_inv in Hf5 as [_ Hf5].
  apply lookup_insert_None_inv in Hf5 as [_ Hf5].
  apply lookup_insert_None_inv in Hf5 as [_ Hf5].
  apply lookup_insert_None_inv in Hf5 as [Hn52 Hf5].
  apply lookup_insert_None_inv in Hf5 as [Hn51 Hf5].
  exists n1, n2, n3, n5, n4, data. split_and!.
  - done.
  - done.
  - repeat (apply NoDup_cons; split;
            [intros Hin;
             repeat (apply elem_of_cons in Hin as [Heq|Hin]; [congruence|]);
             by apply elem_of_nil in Hin|]).
    apply NoDup_nil_2.
  - by repeat constructor.
  - rewrite HfsI, HfsH, HfsG, HfsF, HfsE, HfsD, HfsC, HfsB, HfsA.
    apply map_eq. intros k.
    repeat (rewrite lookup_insert; destruct (decide _); simplify_eq;
            try done).
  - congruence.
  - congruence.
Qed.

End StagingFacts.

Section StagedRunFacts.
Context {runtime : Runtime}.
Variable bin : string.

(** The last part of the [try] body, result and state, in a frame whose
    file-name locals are bound. *)
Lemma run_toco_from_protos_run (toco model input output debug : string)
    (w1 : World) :
  let l := {| toco_filename := Some toco; model_filename := Some model;
              input_filename := Some input; output_filename := Some output;
              debug_filename := Some debug |} in
  let '(exitcode, captured, fs) :=
    shell (cmdline_of bin l) (search_path w1) (files w1) in
  run (run_toco_from_protos bin false) (w1, l)
  = (if bool_decide (exitcode = 0) then
       match fs !! output with
       | Some contents => Return contents
       | None => Raise (OSError "No such file or directory")
       end
     else
       Raise (ConverterError
                ("See console for info." +:+ nl
                 +:+ format_s (_try_convert_to_unicode (Some (PyBytes captured)))
                 +:+ nl +:+ format_s (_try_convert_to_unicode None) +:+ nl)),
     (log (ProcessSpawn (cmdline_of bin l)) (set_files fs w1), l)).
Proof.
  intros l.
  destruct (shell (cmdline_of bin l) (search_path w1) (files w1))
    as [[exitcode captured] fs] eqn:Hshell.
  unfold run_toco_from_protos. rewrite run_bind. cbn [locals run].
  subst l. cbn [model_filename toco_filename input_filename
                output_filename debug_filename as_str].
  rewrite !run_ret_bind. rewrite app_nil_r.
  rewrite run_bind, run_in_world. unfold Popen_communicate. cbn [run].
  unfold cmdline_of in Hshell. cbn [model_filename toco_filename
    input_filename output_filename debug_filename default id] in Hshell.
  rewrite Hshell. cbn [fst snd].
  case_bool_decide.
  - rewrite run_in_world. unfold read_file. cbn [run fst files set_files log].
    by destruct (fs !! output).
  - reflexivity.
Qed.

(** The whole dispatch, result and host, once the files are staged: the
    helper runs once on the staged host, and the [finally] block takes
    the four names it knows out of the files the helper leaves. *)
Lemma toco_convert_protos_staged_run (m t : string) (i : option string)
    (d : option pystr) (w w1 : World) (l : Locals) :
  bin ≠ "" → is_Some (find_executable bin w) →
  run (build_input_files m t i d;; reserve_output_file) (w, no_locals)
    = (Return (), (w1, l)) →
  let '(exitcode, captured, fs) :=
    shell (cmdline_of bin l) (search_path w1) (files w1) in
  (run (toco_convert_protos bin m t i d false) w).2
  = set_files (unlink_all (cleanup_names l) fs)
      (log (ProcessSpawn (cmdline_of bin l)) w1).
Proof.
  intros Hbin [exe Hfind] Hstage.
  destruct (staged_locals _ _ _ _ _ _ _ Hstage)
    as (toco & model & input & output & debug & ->).
  pose proof (run_toco_from_protos_run toco model input output debug w1)
    as Hrun. cbv zeta in Hrun.
  destruct (shell _ (search_path w1) (files w1)) as [[exitcode captured] fs].
  unfold toco_convert_protos.
  rewrite orb_false_l, bool_decide_eq_false_2 by done.
  rewrite run_bind. cbn [run]. rewrite Hfind.
  unfold with_locals, try_finally. cbn [run].
  rewrite run_seq_assoc, run_bind, Hstage, Hrun.
  by rewrite cleanup_files_run.
Qed.

End StagedRunFacts.

Lemma NoDup_five (a b c d e : string) :
  NoDup [a; b; c; d; e] →
  a ≠ b ∧ a ≠ c ∧ a ≠ d ∧ a ≠ e ∧ b ≠ c ∧ b ≠ d ∧ b ≠ e
  ∧ c ≠ d ∧ c ≠ e ∧ d ≠ e.
Proof.
  rewrite !NoDup_cons, !not_elem_of_cons. unfold not. tauto.
Qed.

Section StagedFileFacts.
Context {runtime : Runtime}.
Variable bin : string.

(** X18: once its temporary files are in place, a dispatch through the
    helper ends, whatever the helper did and however it exited, with no
    file left under the four names the [finally] block goes through:
    those of the toco flags, the input data, the model flags and the
    output. *)
Theorem toco_convert_protos_removes_named_files
    (model_flags_str toco_flags_str : string)
    (input_data_str : option string) (debug_info_str : option pystr)
    (w w1 : World) (l : Locals) (name : string) :
  bin ≠ "" →
  is_Some (find_executable bin w) →
  run (build_input_files model_flags_str toco_flags_str input_data_str
         debug_info_str;; reserve_output_file) (w, no_locals)
    = (Return (), (w1, l)) →
  Some name ∈ cleanup_names l →
  files (run (toco_convert_protos bin model_flags_str toco_flags_str
                input_data_str debug_info_str false) w).2 !! name = None.
Proof.
  intros Hbin Hfind Hstage Hname.
  pose proof (toco_convert_protos_staged_run bin _ _ _ _ _ _ _
                Hbin Hfind Hstage) as Hrun.
  destruct (shell _ (search_path w1) (files w1)) as [[exitcode captured] fs].
  rewrite Hrun. cbn [files set_files].
  by rewrite unlink_all_lookup, bool_decide_eq_true_2.
Qed.

(** X19: the debug-info file is not among them.  Its name carried no
    file before the call, the helper finds the debug payload in it, and
    after the call it is exactly as the helper left it: the dispatcher
    never unlinks it. *)
Theorem toco_convert_protos_keeps_debug_file
    (model_flags_str toco_flags_str : string)
    (input_data_str : option string) (debug_info_str : option pystr)
    (w w1 : World) (l : Locals) :
  bin ≠ "" →
  is_Some (find_executable bin w) →
  run (build_input_files model_flags_str toco_flags_str input_data_str
         debug_info_str;; reserve_output_file) (w, no_locals)
    = (Return (), (w1, l)) →
  ∃ debug,
    debug_filename l = Some debug
    ∧ files w !! debug = None
    ∧ files w1 !! debug = Some (debug_payload debug_info_str)
    ∧ files (run (toco_convert_protos bin model_flags_str toco_flags_str
                    input_data_str debug_info_str false) w).2 !! debug
      = (shell (cmdline_of bin l) (search_path w1) (files w1)).2 !! debug.
Proof.
  intros Hbin Hfind Hstage.
  pose proof (toco_convert_protos_staged_run bin _ _ _ _ _ _ _
                Hbin Hfind Hstage) as Hrun.
  destruct (staged_files _ _ _ _ _ _ _ Hstage)
    as (toco & model & input & output & debug & data & _ & -> & Hdup
        & Hfresh & Hfiles & _ & _).
  apply NoDup_five in Hdup
    as (? & ? & ? & ? & ? & ? & ? & ? & ? & ?).
  exists debug. split_and!; [done| | |].
  - eapply Forall_forall in Hfresh; [exact Hfresh|].
    rewrite !elem_of_cons. by do 3 right; left.
  - rewrite Hfiles, lookup_insert_ne, lookup_insert_eq by done. done.
  - destruct (shell _ (search_path w1) (files w1)) as [[exitcode captured] fs].
    rewrite Hrun. cbn [files set_files snd].
    rewrite unlink_all_lookup, bool_decide_eq_false_2; [done|].
    unfold cleanup_names. cbn [toco_filename input_filename model_filename
                               output_filename].
    rewrite !elem_of_cons, elem_of_nil.
    intros [[=]|[[=]|[[=]|[[=]|[]]]]]; congruence.
Qed.

End StagedFileFacts.

Section StagedSpawnFacts.
Context {runtime : Runtime}.
Variable bin : string.

(** X20: such a dispatch starts the helper exactly once, on a command
    line of six words: the configured binary, the names of the model
    flags, toco flags, input and output files in this order, and the
    debug file behind [--debug_proto_file=].  The flag
    [--enable_mlir_converter] is never on it. *)
Theorem toco_convert_protos_spawns_once
    (model_flags_str toco_flags_str : string)
    (input_data_str : option string) (debug_info_str : option pystr)
    (w w1 : World) (l : Locals) :
  bin ≠ "" →
  is_Some (find_executable bin w) →
  run (build_input_files model_flags_str toco_flags_str input_data_str
         debug_info_str;; reserve_output_file) (w, no_locals)
    = (Return (), (w1, l)) →
  ∃ toco model input output debug,
    l = {| toco_filename := Some toco; model_filename := Some model;
           input_filename := Some input; output_filename := Some output;
           debug_filename := Some debug |}
    ∧ trace (run (toco_convert_protos bin model_flags_str toco_flags_str
                    input_data_str debug_info_str false) w).2
      = trace w
        ++ [ProcessSpawn
              (String.concat " "
                 [bin; model; toco; input; output;
                  "--debug_proto_file=" +:+ debug])].
Proof.
  intros Hbin Hfind Hstage.
  pose proof (toco_convert_protos_staged_run bin _ _ _ _ _ _ _
                Hbin Hfind Hstage) as Hrun.
  destruct (staged_files _ _ _ _ _ _ _ Hstage)
    as (toco & model & input & output & debug & data & _ & -> & _ & _ & _
        & Htrace & _).
  exists toco, model, input, output, debug. split; [done|].
  destruct (shell _ (search_path w1) (files w1)) as [[exitcode captured] fs].
  rewrite Hrun. cbn [trace set_files log]. by rewrite Htrace.
Qed.

(** X21: when the helper starts, the files named on its command line
    hold what the caller passed: the model flags, the toco flags, the
    input data and the debug payload, byte for byte, and the output
    file is there and empty. *)
Theorem toco_convert_protos_staged_contents
    (model_flags_str toco_flags_str : string)
    (input_data_str : option string) (debug_info_str : option pystr)
    (w w1 : World) (l : Locals) :
  run (build_input_files model_flags_str toco_flags_str input_data_str
         debug_info_str;; reserve_output_file) (w, no_locals)
    = (Return (), (w1, l)) →
  ∃ toco model input output debug data,
    input_data_str = Some data
    ∧ l = {| toco_filename := Some toco; model_filename := Some model;
             input_filename := Some input; output_filename := Some output;
             debug_filename := Some debug |}
    ∧ files w1 !! model = Some model_flags_str
    ∧ files w1 !! toco = Some toco_flags_str
    ∧ files w1 !! input = Some data
    ∧ files w1 !! debug = Some (debug_payload debug_info_str)
    ∧ files w1 !! output = Some "".
Proof.
  intros Hstage.
  destruct (staged_files _ _ _ _ _ _ _ Hstage)
    as (toco & model & input & output & debug & data & Hdata & -> & Hdup
        & _ & Hfiles & _ & _).
  apply NoDup_five in Hdup
    as (? & ? & ? & ? & ? & ? & ? & ? & ? & ?).
  exists toco, model, input, output, debug, data.
  rewrite Hfiles. split_and!; [done|done|..].
  - by rewrite !lookup_insert_ne, lookup_insert_eq by done.
  - by rewrite !lookup_insert_ne, lookup_insert_eq by done.
  - by rewrite !lookup_insert_ne, lookup_insert_eq by done.
  - by rewrite !lookup_insert_ne, lookup_insert_eq by done.
  - by rewrite lookup_insert_eq.
Qed.

(** X22: a file that was there before the call is none of the
    temporary files: the helper finds it unchanged, and after the call
    it is as the helper left it. *)
Theorem toco_convert_protos_other_files
    (model_flags_str toco_flags_str : string)
    (input_data_str : option string) (debug_info_str : option pystr)
    (w w1 : World) (l : Locals) (path contents : string) :
  bin ≠ "" →
  is_Some (find_executable bin w) →
  run (build_input_files model_flags_str toco_flags_str input_data_str
         debug_info_str;; reserve_output_file) (w, no_locals)
    = (Return (), (w1, l)) →
  files w !! path = Some contents →
  files w1 !! path = Some contents
  ∧ files (run (toco_convert_protos bin model_flags_str toco_flags_str
                  input_data_str debug_info_str false) w).2 !! path
    = (shell (cmdline_of bin l) (search_path w1) (files w1)).2 !! path.
Proof.
  intros Hbin Hfind Hstage Hpath.
  pose proof (toco_convert_protos_staged_run bin _ _ _ _ _ _ _
                Hbin Hfind Hstage) as Hrun.
  destruct (staged_files _ _ _ _ _ _ _ Hstage)
    as (toco & model & input & output & debug & data & _ & -> & _
        & Hfresh & Hfiles & _ & _).
  assert (Forall (λ name, name ≠ path) [toco; model; input; debug; output])
    as Hne.
  { eapply Forall_impl; [exact Hfresh|]. intros name Hname. simpl in Hname.
    congruence. }
  apply Forall_cons in Hne as [Hn1 Hne]. apply Forall_cons in Hne as [Hn2 Hne].
  apply Forall_cons in Hne as [Hn3 Hne]. apply Forall_cons in Hne as [Hn4 Hne].
  apply Forall_cons in Hne as [Hn5 _].
  split.
  - by rewrite Hfiles, !lookup_insert_ne.
  - destruct (shell _ (search_path w1) (files w1)) as [[exitcode captured] fs].
    rewrite Hrun. cbn [files set_files snd].
    rewrite unlink_all_lookup, bool_decide_eq_false_2; [done|].
    unfold cleanup_names. cbn [toco_filename input_filename model_filename
                               output_filename].
    rewrite !elem_of_cons, elem_of_nil.
    intros [[=]|[[=]|[[=]|[[=]|[]]]]]; congruence.
Qed.

(** X23: when building the files fails (no temporary name left, or an
    [input_data_str] that is [None]), the dispatch raises that very
    exception and starts no process. *)
Theorem toco_convert_protos_staging_fails
    (model_flags_str toco_flags_str : string)
    (input_data_str : option string) (debug_info_str : option pystr)
    (w : World) (e : exn) (f : Frame) :
  bin ≠ "" →
  is_Some (find_executable bin w) →
  run (build_input_files model_flags_str toco_flags_str input_data_str
         debug_info_str;; reserve_output_file) (w, no_locals)
    = (Raise e, f) →
  (run (toco_convert_protos bin model_flags_str toco_flags_str
          input_data_str debug_info_str false) w).1 = Raise e
  ∧ trace (run (toco_convert_protos bin model_flags_str toco_flags_str
                  input_data_str debug_info_str false) w).2 = trace w.
Proof.
  intros Hbin Hfind Hstage.
  assert (trace f.1 = trace w) as Htrace.
  { pose proof (preserves_bind (on_world same_trace)
                  (build_input_files model_flags_str toco_flags_str
                     input_data_str debug_info_str)
                  (λ _, reserve_output_file)
                  (build_input_files_same_trace _ _ _ _)
                  (λ _, reserve_output_file_same_trace) (w, no_locals))
      as Hsame.
    by rewrite Hstage in Hsame. }
  destruct Hfind as [exe Hfind]. unfold toco_convert_protos.
  rewrite orb_false_l, bool_decide_eq_false_2 by done.
  rewrite run_bind. cbn [run]. rewrite Hfind.
  unfold with_locals, try_finally. cbn [run].
  rewrite run_seq_assoc, run_bind, Hstage. destruct f as [wf lf].
  rewrite cleanup_files_run. cbn [fst snd trace set_files]. done.
Qed.

End StagedSpawnFacts.

(** ** The staged dispatch on the sample host *)

Lemma toco_convert_protos_removes_named_files_witness :
  files (run (toco_convert_protos (runtime:=Sample.runtime) "toco_from_protos"
                "model" "flags" (Some "graph") None false) Sample.world).2
    !! "/tmp/t5" = None.
Proof.
  pose (staged := run (build_input_files "model" "flags" (Some "graph") None;;
                       reserve_output_file) (Sample.world, no_locals)).
  apply (toco_convert_protos_removes_named_files (runtime:=Sample.runtime)
           "toco_from_protos" "model" "flags" (Some "graph") None
           Sample.world staged.2.1 staged.2.2 "/tmp/t5").
  - done.
  - exists "/usr/bin/toco_from_protos". vm_compute. reflexivity.
  - vm_compute. reflexivity.
  - vm_compute. repeat constructor.
Defined.

Lemma toco_convert_protos_keeps_debug_file_witness :
  files (run (toco_convert_protos (runtime:=Sample.runtime) "toco_from_protos"
                "model" "flags" (Some "graph") (Some (PyText "debug")) false)
             Sample.world).2
    !! "/tmp/t4" = Some "debug".
Proof.
  pose (staged := run (build_input_files "model" "flags" (Some "graph")
                         (Some (PyText "debug"));;
                       reserve_output_file) (Sample.world, no_locals)).
  destruct (toco_convert_protos_keeps_debug_file (runtime:=Sample.runtime)
              "toco_from_protos" "model" "flags" (Some "graph")
              (Some (PyText "debug")) Sample.world staged.2.1 staged.2.2)
    as (debug & Hdebug & _ & _ & Hfinal).
  - done.
  - exists "/usr/bin/toco_from_protos". vm_compute. reflexivity.
  - vm_compute. reflexivity.
  - vm_compute in Hdebug. injection Hdebug as <-.
    rewrite Hfinal. vm_compute. reflexivity.
Defined.

Lemma toco_convert_protos_spawns_once_witness :
  trace (run (toco_convert_protos (runtime:=Sample.runtime) "toco_from_protos"
                "model" "flags" (Some "graph") None false) Sample.world).2
  = [ProcessSpawn
       "toco_from_protos /tmp/t2 /tmp/t1 /tmp/t3 /tmp/t5 --debug_proto_file=/tmp/t4"].
Proof.
  pose (staged := run (build_input_files "model" "flags" (Some "graph") None;;
                       reserve_output_file) (Sample.world, no_locals)).
  destruct (toco_convert_protos_spawns_once (runtime:=Sample.runtime)
              "toco_from_protos" "model" "flags" (Some "graph") None
              Sample.world staged.2.1 staged.2.2)
    as (toco & model & input & output & debug & Hl & Htrace).
  - done.
  - exists "/usr/bin/toco_from_protos". vm_compute. reflexivity.
  - vm_compute. reflexivity.
  - vm_compute in Hl. injection Hl as <- <- <- <- <-.
    rewrite Htrace. vm_compute. reflexivity.
Defined.

Lemma toco_convert_protos_staged_contents_witness :
  let staged :=
    (run (build_input_files "model" "flags" (Some "graph")
            (Some (PyBytes "debug"));; reserve_output_file)
         (Sample.world, no_locals)).2.1 in
  files staged !! "/tmp/t2" = Some "model"
  ∧ files staged !! "/tmp/t1" = Some "flags"
  ∧ files staged !! "/tmp/t3" = Some "graph"
  ∧ files staged !! "/tmp/t4" = Some "debug"
  ∧ files staged !! "/tmp/t5" = Some "".
Proof.
  pose (staged := run (build_input_files "model" "flags" (Some "graph")
                         (Some (PyBytes "debug"));;
                       reserve_output_file) (Sample.world, no_locals)).
  destruct (toco_convert_protos_staged_contents
              "model" "flags" (Some "graph") (Some (PyBytes "debug"))
              Sample.world staged.2.1 staged.2.2)
    as (toco & model & input & output & debug & data & Hdata & Hl
        & Hmodel & Htoco & Hinput & Hdebug & Houtput).
  - vm_compute. reflexivity.
  - injection Hdata as <-.
    vm_compute in Hl. injection Hl as <- <- <- <- <-.
    cbv zeta. fold staged. split_and!; assumption.
Defined.

Lemma toco_convert_protos_other_files_witness :
  files (run (toco_convert_protos (runtime:=Sample.runtime) "toco_from_protos"
                "model" "flags" (Some "graph") None false) Sample.world).2
    !! "/usr/bin/toco_from_protos" = Some "#!".
Proof.
  pose (staged := run (build_input_files "model" "flags" (Some "graph") None;;
                       reserve_output_file) (Sample.world, no_locals)).
  destruct (toco_convert_protos_other_files (runtime:=Sample.runtime)
              "toco_from_protos" "model" "flags" (Some "graph") None
              Sample.world staged.2.1 staged.2.2
              "/usr/bin/toco_from_protos" "#!")
    as [_ Hfinal].
  - done.
  - exists "/usr/bin/toco_from_protos". vm_compute. reflexivity.
  - vm_compute. reflexivity.
  - vm_compute. reflexivity.
  - rewrite Hfinal. vm_compute. reflexivity.
Defined.

Lemma toco_convert_protos_staging_fails_witness :
  (run (toco_convert_protos (runtime:=Sample.runtime) "toco_from_protos"
          "model" "flags" None None false) Sample.world).1
  = Raise (TypeError "not expecting type '<class 'NoneType'>'")
  ∧ trace (run (toco_convert_protos (runtime:=Sample.runtime)
                  "toco_from_protos" "model" "flags" None None false)
               Sample.world).2 = [].
Proof.
  pose (staged := run (build_input_files "model" "flags" None None;;
                       reserve_output_file) (Sample.world, no_locals)).
  apply (toco_convert_protos_staging_fails (runtime:=Sample.runtime)
           "toco_from_protos" "model" "flags" None None Sample.world
           (TypeError "not expecting type '<class 'NoneType'>'") staged.2).
  - done.
  - exists "/usr/bin/toco_from_protos". vm_compute. reflexivity.
  - vm_compute. reflexivity.
Defined.
